(** * mbtiles-s3-server: the request handlers and the environment decoder

    A shallow embedding of [mbtiles_s3_server.py]: the nested-key decoder
    [normalise_environment] and the four request handlers closed over the
    catalogs built by [mbtiles_s3_server].  Python values are modelled as
    the code uses them: [str] as [string] (one [ascii] per code point below
    256), [bytes] as [list byte], insertion-ordered [dict]s whose order is
    observable as association lists, the catalogs (looked up only) as
    [gmap]s, exceptions as an explicit result type. *)

From Stdlib Require Import ZArith Lia List Ascii String Sorted Permutation.
From Stdlib Require Import Init.Byte.
From stdpp Require Import base option list gmap strings.

Local Open Scope Z_scope.

(** ** Python primitives used by the program *)

Module Py.

(** *** [str] *)

(** [s.startswith(p)] *)
Fixpoint startswith (p s : string) : bool :=
  match p with
  | EmptyString => true
  | String a p' =>
      match s with
      | EmptyString => false
      | String b s' => Ascii.eqb a b && startswith p' s'
      end
  end.

(** [s.endswith(p)] for a one-character [p] *)
Fixpoint endswith_char (c : ascii) (s : string) : bool :=
  match s with
  | EmptyString => false
  | String a EmptyString => Ascii.eqb a c
  | String _ s' => endswith_char c s'
  end.

(** [sub in s] *)
Fixpoint contains (sub s : string) : bool :=
  startswith sub s ||
  match s with
  | EmptyString => false
  | String _ s' => contains sub s'
  end.

Definition truthy (s : string) : bool := negb (String.eqb s "").

(** [s.lower()], on the code points below 256 *)
Definition lower_char (c : ascii) : ascii :=
  let n := nat_of_ascii c in
  if ((65 <=? n) && (n <=? 90) || (192 <=? n) && (n <=? 214)
      || (216 <=? n) && (n <=? 222))%nat
  then ascii_of_nat (n + 32)
  else c.

Fixpoint lower (s : string) : string :=
  match s with
  | EmptyString => EmptyString
  | String c s' => String (lower_char c) (lower s')
  end.

(** [s.split(sep)] for a non-empty [sep]: the text is cut at each
    occurrence of [sep] found scanning from the left, occurrences do not
    overlap.  [skip] counts the characters of a separator still to drop. *)
Fixpoint split_from (sep : string) (skip : nat) (s : string) : list string :=
  match s with
  | EmptyString => [EmptyString]
  | String c s' =>
      match skip with
      | S k => split_from sep k s'
      | O =>
          if startswith sep s
          then EmptyString :: split_from sep (String.length sep - 1) s'
          else match split_from sep 0 s' with
               | h :: t => String c h :: t
               | [] => [String c EmptyString]
               end
      end
  end.

Definition split (sep s : string) : list string := split_from sep 0 s.

(** [sep.join(l)] *)
Fixpoint join (sep : string) (l : list string) : string :=
  match l with
  | [] => ""
  | x :: rest =>
      match rest with
      | [] => x
      | _ :: _ => x +:+ sep +:+ join sep rest
      end
  end.

(** *** [int(str)] in base 10

    Surrounding white space is dropped, one sign is allowed, then decimal
    digits, where single underscores may stand between two digits, and no
    more digits than the interpreter's bound, 4300 unless it is set
    otherwise.  [None] is [ValueError].  White space is what [int] drops
    among the code points below 256: tab to carriage return, the space,
    NEL and the no-break space. *)

Definition is_space (c : ascii) : bool :=
  let n := nat_of_ascii c in
  ((9 <=? n) && (n <=? 13) || (n =? 32) || (n =? 133) || (n =? 160))%nat.

Fixpoint lstrip (s : string) : string :=
  match s with
  | EmptyString => EmptyString
  | String c s' => if is_space c then lstrip s' else s
  end.

Fixpoint rstrip (s : string) : string :=
  match s with
  | EmptyString => EmptyString
  | String c s' =>
      let r := rstrip s' in
      if is_space c && String.eqb r "" then EmptyString else String c r
  end.

Definition strip (s : string) : string := rstrip (lstrip s).

Definition digit_value (c : ascii) : option Z :=
  let n := nat_of_ascii c in
  if ((48 <=? n) && (n <=? 57))%nat then Some (Z.of_nat n - 48) else None.

Inductive digit_state := AtStart | AfterDigit | AfterUnderscore.

Fixpoint digits_from (st : digit_state) (acc : Z) (s : string) : option Z :=
  match s with
  | EmptyString =>
      match st with AfterDigit => Some acc | _ => None end
  | String c s' =>
      match digit_value c with
      | Some d => digits_from AfterDigit (10 * acc + d) s'
      | None =>
          if Ascii.eqb c "_"
          then match st with
               | AfterDigit => digits_from AfterUnderscore acc s'
               | _ => None
               end
          else None
      end
  end.

Definition max_str_digits : nat := 4300.

Fixpoint count_digits (s : string) : nat :=
  match s with
  | EmptyString => 0
  | String c s' =>
      match digit_value c with
      | Some _ => S (count_digits s')
      | None => count_digits s'
      end
  end.

Definition unsigned_int (s : string) : option Z :=
  if (max_str_digits <? count_digits s)%nat then None
  else digits_from AtStart 0 s.

Definition int (s : string) : option Z :=
  match strip s with
  | String "+" r => unsigned_int r
  | String "-" r => Z.opp <$> unsigned_int r
  | t => unsigned_int t
  end.

(** *** [sorted(l, key=...)]: stable, ascending *)

Section Sorted.
Context {A K : Type} (leb : K -> K -> bool) (key : A -> K).

Fixpoint insert_sorted (x : A) (l : list A) : list A :=
  match l with
  | [] => [x]
  | y :: l' =>
      if leb (key x) (key y) then x :: y :: l' else y :: insert_sorted x l'
  end.

Definition sorted (l : list A) : list A := foldr insert_sorted [] l.
End Sorted.

(** *** [itertools.groupby(l, key)]: the maximal runs of equal keys *)

Fixpoint groupby {A : Type} (key : A -> string) (l : list A)
  : list (string * list A) :=
  match l with
  | [] => []
  | x :: l' =>
      match groupby key l' with
      | (k, g) :: gs =>
          if String.eqb (key x) k then (k, x :: g) :: gs
          else (key x, [x]) :: (k, g) :: gs
      | [] => [(key x, [x])]
      end
  end.

(** *** [dict] with string keys, in insertion order *)

Definition dict (V : Type) : Type := list (string * V).

Fixpoint dict_get {V : Type} (d : dict V) (k : string) : option V :=
  match d with
  | [] => None
  | (k', v) :: d' => if String.eqb k' k then Some v else dict_get d' k
  end.

(** [d[k] = v]: an existing key keeps its position *)
Fixpoint dict_set {V : Type} (d : dict V) (k : string) (v : V) : dict V :=
  match d with
  | [] => [(k, v)]
  | (k', v') :: d' =>
      if String.eqb k' k then (k', v) :: d' else (k', v') :: dict_set d' k v
  end.

(** [{**d, **items}] and, from the empty dict, a dict comprehension *)
Definition dict_update {V : Type} (d : dict V) (items : list (string * V))
  : dict V :=
  fold_left (fun acc kv => dict_set acc (fst kv) (snd kv)) items d.

Definition dict_of {V : Type} (items : list (string * V)) : dict V :=
  dict_update [] items.

End Py.


(** ** The environment decoder: [normalise_environment] *)

(** What the decoder returns: a leaf string of the input, a list, or a dict. *)
#[warning="-register-all"]
Inductive value : Type :=
| VStr (s : string)
| VList (l : list value)
| VDict (d : list (string * value)).

Definition separator : string := "__".

Definition get_first_component (key : string) : string :=
  hd "" (Py.split separator key).

Definition get_later_components (key : string) : string :=
  Py.join separator (tl (Py.split separator key)).

Definition without_more_components (key_values : Py.dict string)
  : Py.dict string :=
  Py.dict_of
    (List.filter (fun kv => negb (Py.truthy (get_later_components (fst kv))))
       key_values).

Definition with_more_components (key_values : Py.dict string)
  : Py.dict string :=
  Py.dict_of
    (List.filter (fun kv => Py.truthy (get_later_components (fst kv)))
       key_values).

Definition by_first_component (item : string * string) : string :=
  get_first_component (fst item).

Definition grouped_by_first_component (items : list (string * string))
  : list (string * list (string * string)) :=
  Py.groupby by_first_component (Py.sorted String.leb by_first_component items).

Definition items_with_first_component
    (items : list (string * string)) (first_component : string)
  : Py.dict string :=
  Py.dict_of
    (map (fun kv => (get_later_components (fst kv), snd kv))
       (List.filter
          (fun kv => String.eqb (get_first_component (fst kv)) first_component)
          items)).

(** The dict built at one level.  [rec] is the recursive call; [None] stands
    for a call that gave no value. *)
Definition nested_structured_dict
    (rec : Py.dict string -> option value) (key_values : Py.dict string)
  : option (Py.dict value) :=
  groups ← mapM
    (fun g : string * list (string * string) =>
       v ← rec (items_with_first_component (snd g) (fst g));
       Some (fst g, v))
    (grouped_by_first_component (with_more_components key_values));
  Some (Py.dict_update
          (map (fun kv => (fst kv, VStr (snd kv)))
             (without_more_components key_values))
          (Py.dict_of groups)).

Definition is_int (s : string) : bool :=
  match Py.int s with Some _ => true | None => false end.

Definition all_keys_are_ints (nested : Py.dict value) : bool :=
  forallb (fun kv => is_int (fst kv)) nested.

(** [sorted] computes every key first, so a key that is no integer raises
    ([None]) before anything is ordered. *)
Definition list_sorted_by_int_key (nested : Py.dict value)
  : option (list value) :=
  keyed ← mapM (fun kv => n ← Py.int (fst kv); Some (n, kv)) nested;
  Some (map (fun x => snd (snd x)) (Py.sorted Z.leb fst keyed)).

Definition emit (nested : Py.dict value) : option value :=
  if all_keys_are_ints nested
  then VList <$> list_sorted_by_int_key nested
  else Some (VDict nested).

(** The recursion is on ever shorter keys; [fuel] bounds its depth. *)
Fixpoint normalise_fuel (fuel : nat) (key_values : Py.dict string)
  : option value :=
  match fuel with
  | O => None
  | S n => nested_structured_dict (normalise_fuel n) key_values ≫= emit
  end.

Definition key_bound (key_values : Py.dict string) : nat :=
  S (list_max (map (fun kv => String.length (fst kv)) key_values)).

Definition normalise_environment (key_values : Py.dict string) : option value :=
  normalise_fuel (S (key_bound key_values)) key_values.


(** ** The server: [mbtiles_s3_server] *)

Definition bytes : Type := list byte.

(** A view either returns a response or lets an exception escape. *)
Inductive exn : Type :=
| KeyError
| TypeError
| ValueError
| FileNotFoundError
| OSError (errno : Z)
| RemoteError (detail : string).

Inductive result (A : Type) : Type :=
| Return (a : A)
| Raise (e : exn).
Arguments Return {A} a.
Arguments Raise {A} e.

Inductive body : Type :=
| Bytes (b : bytes)
| Text (s : string).

(** [flask.Response(status=, response=, headers=, content_type=)] *)
Record Response : Type := mkResponse {
  status : Z;
  response : option body;
  headers : Py.dict string;
  content_type : option string
}.

Definition empty_response (code : Z) : Response :=
  {| status := code; response := None; headers := []; content_type := None |}.

(** What [json.loads] builds: [dict]s keep the order of the document. *)
#[warning="-register-all"]
Inductive json : Type :=
| JNull
| JBool (b : bool)
| JInt (n : Z)
| JFloat (literal : string)
| JStr (s : string)
| JArr (l : list json)
| JObj (d : list (string * json)).

(** One read handed to [sqlite_s3_query]: the locator of the archive as the
    catalog holds it, the statement and the values bound to its [?]
    placeholders. *)
Record read_request : Type := mkRead {
  url : value;
  statement : string;
  params : Z * Z * Z
}.

(** A row of the one selected column, [tile_data]: a BLOB, or [None] where
    the column is NULL. *)
Record row : Type := mkRow { column0 : option bytes }.

(** What a read gives back: the rows it yields and, when the transport or
    the protocol fails, the exception that ends it. *)
Record query_outcome : Type := mkOutcome {
  rows : list row;
  failure : option exn
}.

Definition sql : string := "
        SELECT
            tile_data
        FROM
            tiles
        WHERE
            zoom_level=? AND
            tile_column=? AND
            tile_row=?
        LIMIT 1
    ".

(** The row of the archive's bottom-left-origin scheme (line 110). *)
Definition y_tms (z y : Z) : Z := (2 ^ z - 1) - y.

(** [os.path.join(a, *p)] of [posixpath] *)
Definition os_path_join (a : string) (p : list string) : string :=
  fold_left
    (fun path b =>
       if Py.startswith "/" b then b
       else if String.eqb path "" || Py.endswith_char "/" path then path +:+ b
       else path +:+ "/" +:+ b)
    p a.

(** What [for mbtile in mbtiles] goes through: the items of a list, the
    keys of a dict, the characters of a string. *)
Definition iterate (mbtiles : value) : list value :=
  match mbtiles with
  | VList l => l
  | VDict d => map (fun kv => VStr (fst kv)) d
  | VStr s => map (fun c => VStr (String c EmptyString)) (list_ascii_of_string s)
  end.

(** Lines 59 and 60 for one [mbtile]: the key is made of its ['IDENTIFIER']
    and ['VERSION'], in that order, then hashed; only strings can be
    hashed, and only a dict takes a string subscript. *)
Definition catalog_item (mbtile : value)
  : result ((string * string) * Py.dict value) :=
  match mbtile with
  | VDict d =>
      match Py.dict_get d "IDENTIFIER" with
      | None => Raise KeyError
      | Some identifier =>
          match Py.dict_get d "VERSION" with
          | None => Raise KeyError
          | Some version =>
              match identifier, version with
              | VStr i, VStr v => Return ((i, v), d)
              | _, _ => Raise TypeError
              end
          end
      end
  | _ => Raise TypeError
  end.

(** The catalog of archives: one entry per [mbtile] of the configuration,
    under its identifier and version; a later entry replaces an earlier one
    with the same key, the first [mbtile] that fails ends the start-up. *)
Definition build_mbtiles_dict (mbtiles : value)
  : result (gmap (string * string) (Py.dict value)) :=
  fold_left
    (fun acc mbtile =>
       match acc with
       | Raise e => Raise e
       | Return d =>
           match catalog_item mbtile with
           | Raise e => Raise e
           | Return (key, entry) => Return (<[key := entry]> d)
           end
       end)
    (iterate mbtiles) (Return ∅).

(** [headers[key] = value] of werkzeug's [Headers] (not part of the
    repository): a value with a line break is refused; the first header of
    that name, whatever its case, is replaced and the later ones of that
    name are dropped; a new name is appended. *)
Fixpoint headers_replace (l : list (string * string)) (key value : string)
  : list (string * string) :=
  match l with
  | [] => [(key, value)]
  | (k, v) :: rest =>
      if String.eqb (Py.lower k) (Py.lower key)
      then (key, value)
           :: List.filter
                (fun t => negb (String.eqb (Py.lower (fst t)) (Py.lower key)))
                rest
      else (k, v) :: headers_replace rest key value
  end.

Definition line_feed : string := String "010" EmptyString.
Definition carriage_return : string := String "013" EmptyString.

Definition headers_set (l : list (string * string)) (key value : string)
  : result (list (string * string)) :=
  if Py.contains line_feed value || Py.contains carriage_return value
  then Raise ValueError
  else Return (headers_replace l key value).

Record static_file : Type := mkStatic { static_bytes : bytes; mime : string }.

(** [flask.request], as far as the views read it.  [args] keeps every
    pair of the query string; [args[k]] is the first value of [k]. *)
Record Request : Type := mkRequest {
  args : list (string * string);
  url_root : string
}.

Section Server.

(** The catalogs, fixed when the server is built. *)
Variable mbtiles_dict : gmap (string * string) (Py.dict value).
Variable styles_dict : gmap (string * string * string) bytes.
Variable statics_dict : gmap (string * string * string) static_file.
Variable fonts_dict : gmap (string * string) string.
Variable http_access_control_allow_origin : option string.

(** The collaborators: the remote archive query, the file system under
    the extracted fonts, and the [json] module. *)
Variable sqlite_s3_query : read_request -> query_outcome.
Variable read : string -> result bytes.
Variable json_loads : bytes -> result json.
Variable json_dumps : json -> string.

(** A view's outcome together with the reads it issued, in order. *)
Definition get_tile (identifier version : string) (z x y : N)
  : list read_request * result Response :=
  match mbtiles_dict !! (identifier, version)
        ≫= (fun m => Py.dict_get m "URL") with
  | None => ([], Return (empty_response 404))
  | Some mbtiles_url =>
      let query :=
        {| url := mbtiles_url; statement := sql;
           params := (Z.of_N z, Z.of_N x, y_tms (Z.of_N z) (Z.of_N y)) |} in
      let outcome := sqlite_s3_query query in
      let tile_data :=
        fold_left (fun _ r => column0 r) (rows outcome) None in
      ([query],
       match failure outcome with
       | Some e => Raise e
       | None =>
           Return
             match tile_data with
             | Some data =>
                 {| status := 200; response := Some (Bytes data);
                    headers :=
                      [("content-encoding", "gzip");
                       ("content-type", "application/vnd.mapbox-vector-tile")];
                    content_type := None |}
             | None => empty_response 404
             end
       end)
  end.

Definition openmaptiles_source (request : Request)
    (tiles_identifier_with_version : string) : json :=
  JObj [("type", JStr "vector");
        ("tiles",
         JArr [JStr (url_root request +:+ "v1/tiles/"
                     +:+ tiles_identifier_with_version
                     +:+ "/{z}/{x}/{y}.mvt")])].

Definition glyphs_url (request : Request)
    (fonts_identifier_with_version : string) : json :=
  JStr (url_root request +:+ "v1/fonts/" +:+ fonts_identifier_with_version
        +:+ "/{fontstack}/{range}.pbf").

(** Lines 163 to 170: the two assignments into the deserialized template.
    Subscripting anything but a dict raises [TypeError], a dict without
    ['sources'] raises [KeyError]. *)
Definition compose_style (style_dict source glyphs : json) : result json :=
  match style_dict with
  | JObj d =>
      match Py.dict_get d "sources" with
      | None => Raise KeyError
      | Some (JObj sources) =>
          let d1 :=
            Py.dict_set d "sources"
              (JObj (Py.dict_set sources "openmaptiles" source)) in
          Return (JObj (Py.dict_set d1 "glyphs" glyphs))
      | Some _ => Raise TypeError
      end
  | _ => Raise TypeError
  end.

Definition get_styles (request : Request) (identifier version file : string)
  : result Response :=
  match styles_dict !! (identifier, version, file) with
  | None => Return (empty_response 404)
  | Some style_bytes =>
  match Py.dict_get (args request) "tiles" with
  | None => Return (empty_response 400)
  | Some tiles_identifier_with_version =>
  match Py.split "@" tiles_identifier_with_version with
  | [tiles_identifier; tiles_version] =>
  match mbtiles_dict !! (tiles_identifier, tiles_version) with
  | None => Return (empty_response 404)
  | Some _ =>
  match Py.dict_get (args request) "fonts" with
  | None => Return (empty_response 400)
  | Some fonts_identifier_with_version =>
  match Py.split "@" fonts_identifier_with_version with
  | [fonts_identifier; fonts_version] =>
  match fonts_dict !! (fonts_identifier, fonts_version) with
  | None => Return (empty_response 404)
  | Some _ =>
  match json_loads style_bytes with
  | Raise e => Raise e
  | Return style_dict =>
  match compose_style style_dict
          (openmaptiles_source request tiles_identifier_with_version)
          (glyphs_url request fonts_identifier_with_version) with
  | Raise e => Raise e
  | Return style_dict' =>
      Return {| status := 200;
                response := Some (Text (json_dumps style_dict'));
                headers := [];
                content_type := Some "application/json" |}
  end end end
  | _ => Return (empty_response 400)
  end end end
  | _ => Return (empty_response 400)
  end end end.

(** The generator handed to [b''.join]: the files are read in the order of
    the stack, the first exception ends it. *)
Fixpoint read_fonts (font_path range : string) (fonts : list string)
  : result bytes :=
  match fonts with
  | [] => Return []
  | font :: rest =>
      match read (os_path_join font_path [font; range +:+ ".pbf.gz"]) with
      | Raise e => Raise e
      | Return b =>
          match read_fonts font_path range rest with
          | Raise e => Raise e
          | Return bs => Return (b ++ bs)
          end
      end
  end.

Definition get_fonts (identifier version stack range : string)
  : result Response :=
  match fonts_dict !! (identifier, version) with
  | None => Return (empty_response 404)
  | Some font_path =>
      if Py.contains "." stack || Py.contains "." range
      then Return (empty_response 404)
      else
        let stack := hd "" (Py.split "." stack) in
        match read_fonts font_path range (Py.split "," stack) with
        | Raise FileNotFoundError => Return (empty_response 404)
        | Raise e => Raise e
        | Return font_bytes =>
            Return {| status := 200; response := Some (Bytes font_bytes);
                      headers := [("content-encoding", "gzip")];
                      content_type := None |}
        end
  end.

Definition get_static (identifier version file : string) : result Response :=
  match statics_dict !! (identifier, version, file) with
  | None => Return (empty_response 404)
  | Some static_dict =>
      Return {| status := 200;
                response := Some (Bytes (static_bytes static_dict));
                headers := [];
                content_type := Some (mime static_dict) |}
  end.

Definition _add_headers (resp : Response) : result Response :=
  match http_access_control_allow_origin with
  | Some origin =>
      if Py.truthy origin
      then
        match headers_set (headers resp) "access-control-allow-origin"
                origin with
        | Raise e => Raise e
        | Return headers' =>
            Return {| status := status resp; response := response resp;
                      headers := headers';
                      content_type := content_type resp |}
        end
      else Return resp
  | None => Return resp
  end.

(** The status the client receives.  Flask (not part of the repository)
    sends a returned response through [_add_headers], and answers an
    exception that escapes the view or [_add_headers] with
    [500 Internal Server Error]. *)
Definition served_status (outcome : result Response) : Z :=
  match outcome with
  | Return resp =>
      match _add_headers resp with
      | Return resp' => status resp'
      | Raise _ => 500
      end
  | Raise _ => 500
  end.

End Server.

(** ** The start-up: [main] *)

(** [v[k]] on a value of the decoder: only a dict takes a string key. *)
Definition subscript (v : value) (k : string) : result value :=
  match v with
  | VDict d =>
      match Py.dict_get d k with
      | Some x => Return x
      | None => Raise KeyError
      end
  | _ => Raise TypeError
  end.

(** Lines 311 to 320: the port, the archives and the allowed origin that
    [main] hands to [mbtiles_s3_server], evaluated in that order after the
    environment is decoded.  [None] stands for a decoder that gave no
    value; [env.get] is reached only once [env['MBTILES']] has shown [env]
    to be a dict. *)
Definition main_arguments (environ : Py.dict string)
  : option (result (Z * value * option value)) :=
  env ← normalise_environment environ;
  Some
    match Py.dict_get environ "PORT" with
    | None => Raise KeyError
    | Some port =>
        match Py.int port with
        | None => Raise ValueError
        | Some n =>
            match subscript env "MBTILES" with
            | Raise e => Raise e
            | Return mbtiles =>
                Return
                  (n, mbtiles,
                   match env with
                   | VDict d => Py.dict_get d "HTTP_ACCESS_CONTROL_ALLOW_ORIGIN"
                   | _ => None
                   end)
            end
        end
    end.

(** The path of one glyph file (line 193). *)
Definition glyph_path (font_path font range : string) : string :=
  os_path_join font_path [font; range +:+ ".pbf.gz"].

(** ** Definitions for the statements *)

(** [x] is at or before [y] in the order [leb] of their keys. *)
Definition key_le {A K : Type} (leb : K -> K -> bool) (key : A -> K)
    (x y : A) : Prop :=
  leb (key x) (key y) = true.

Definition has_key {A : Type} (key : A -> string) (k : string) (x : A)
  : bool :=
  String.eqb (key x) k.

Definition keys_below (n : nat) (key_values : Py.dict string) : Prop :=
  forall k, k ∈ map fst key_values -> (String.length k < n)%nat.

Definition int_key_le (a b : string * value) : Prop :=
  exists m n, Py.int (fst a) = Some m /\ Py.int (fst b) = Some n /\ m <= n.

(** The condition of the specification: a key that parses as an integer
    that is not negative. *)
Definition parses_as_non_negative_integer (s : string) : Prop :=
  exists n, Py.int s = Some n /\ 0 <= n.

(** The emission rule as the specification words it: a list when every key
    of the level parses as a non-negative integer, the dict otherwise. *)
Definition emits_as_specified (key_values : Py.dict string) : Prop :=
  forall nested,
    nested_structured_dict normalise_environment key_values = Some nested ->
    ((forall k, k ∈ map fst nested -> parses_as_non_negative_integer k) ->
     exists l, normalise_environment key_values = Some (VList l)) /\
    (~ (forall k, k ∈ map fst nested -> parses_as_non_negative_integer k) ->
     normalise_environment key_values = Some (VDict nested)).

(** The catalog of the specification maps every archive to its locator:
    each entry of the configuration carries a [URL]. *)
Definition every_archive_has_url
    (mbtiles_dict : gmap (string * string) (Py.dict value)) : Prop :=
  forall key mbtile,
    mbtiles_dict !! key = Some mbtile -> is_Some (Py.dict_get mbtile "URL").

Definition tile_response (data : bytes) : Response :=
  {| status := 200; response := Some (Bytes data);
     headers := [("content-encoding", "gzip");
                 ("content-type", "application/vnd.mapbox-vector-tile")];
     content_type := None |}.

(** The validation of a style request as the specification lists it: the
    checks in order, each with the status its failure is answered with. *)
Definition present {A : Type} (o : option A) : bool :=
  match o with Some _ => true | None => false end.

Definition splits_in_two (reference : option string) : bool :=
  match reference with
  | Some s => Nat.eqb (length (Py.split "@" s)) 2
  | None => false
  end.

Definition refers_into {A : Type} (catalog : gmap (string * string) A)
    (reference : option string) : bool :=
  match reference with
  | Some s =>
      match Py.split "@" s with
      | [identifier; version] => present (catalog !! (identifier, version))
      | _ => false
      end
  | None => false
  end.

Definition style_checks
    (mbtiles_dict : gmap (string * string) (Py.dict value))
    (styles_dict : gmap (string * string * string) bytes)
    (fonts_dict : gmap (string * string) string)
    (request : Request) (identifier version file : string)
  : list (bool * Z) :=
  let tiles := Py.dict_get (args request) "tiles" in
  let fonts := Py.dict_get (args request) "fonts" in
  [ (present (styles_dict !! (identifier, version, file)), 404);
    (present tiles, 400);
    (splits_in_two tiles, 400);
    (refers_into mbtiles_dict tiles, 404);
    (present fonts, 400);
    (splits_in_two fonts, 400);
    (refers_into fonts_dict fonts, 404) ].

Definition first_failure (checks : list (bool * Z)) : option Z :=
  snd <$> List.find (fun check => negb (fst check)) checks.

(** A small world for the closed instances: one archive, one style, one
    font collection with two fonts, and a remote that holds one tile. *)
Definition demo_mbtile : Py.dict value :=
  [("IDENTIFIER", VStr "counties"); ("VERSION", VStr "1");
   ("URL", VStr "https://bucket.example/counties.mbtiles")].

Definition demo_mbtiles_dict : gmap (string * string) (Py.dict value) :=
  {[ ("counties", "1") := demo_mbtile ]}.

Definition demo_styles_dict : gmap (string * string * string) bytes :=
  {[ ("positron-gl-style", "1.8", "style.json") := [x7b; x7d] ]}.

Definition demo_fonts_dict : gmap (string * string) string :=
  {[ ("fonts-gl", "2.0") := "/tmp/fonts" ]}.

Definition demo_remote (query : read_request) : query_outcome :=
  if decide (params query = (3, 2, 5))
  then {| rows := [{| column0 := Some [x1f; x8b] |}]; failure := None |}
  else {| rows := []; failure := None |}.

Definition demo_failing_remote (query : read_request) : query_outcome :=
  {| rows := []; failure := Some (RemoteError "connection reset") |}.

Definition demo_read (path : string) : result bytes :=
  if String.eqb path "/tmp/fonts/A/0-255.pbf.gz" then Return [x01]
  else if String.eqb path "/tmp/fonts/B/0-255.pbf.gz" then Return [x02]
  else Raise FileNotFoundError.

Definition demo_template : json :=
  JObj [("version", JInt 8);
        ("sources", JObj [("openmaptiles", JObj [("type", JStr "vector")]);
                          ("other", JNull)]);
        ("layers", JArr [])].

Definition demo_json_loads (_ : bytes) : result json := Return demo_template.

Definition demo_json_dumps (_ : json) : string := "{}".

Definition demo_request : Request :=
  {| args := [("tiles", "counties@1"); ("fonts", "fonts-gl@2.0")];
     url_root := "http://localhost:8080/" |}.

(** The tile claim as the specification words it: for a key of the catalog
    one read for [(z, x, 2^z - 1 - y)]; a row returned, a 200 with bytes;
    no row, a 404. *)
Definition tile_claim_as_stated
    (mbtiles_dict : gmap (string * string) (Py.dict value))
    (sqlite_s3_query : read_request -> query_outcome)
    (identifier version : string) (z x y : N) : Prop :=
  is_Some (mbtiles_dict !! (identifier, version)) ->
  let result :=
    get_tile mbtiles_dict sqlite_s3_query identifier version z x y in
  exists query,
    fst result = [query] /\
    params query = (Z.of_N z, Z.of_N x, 2 ^ Z.of_N z - 1 - Z.of_N y) /\
    (rows (sqlite_s3_query query) <> [] ->
     failure (sqlite_s3_query query) = None ->
     exists data, snd result = Return (tile_response data)) /\
    (rows (sqlite_s3_query query) = [] ->
     failure (sqlite_s3_query query) = None ->
     snd result = Return (empty_response 404)).

(** The second half of the failure claim as the specification words it: a
    404 is returned only for an unknown key or an empty result. *)
Definition not_found_claim_as_stated
    (mbtiles_dict : gmap (string * string) (Py.dict value))
    (sqlite_s3_query : read_request -> query_outcome)
    (identifier version : string) (z x y : N) : Prop :=
  let result :=
    get_tile mbtiles_dict sqlite_s3_query identifier version z x y in
  forall resp, snd result = Return resp -> status resp = 404 ->
    mbtiles_dict !! (identifier, version) = None \/
    exists query, fst result = [query] /\ rows (sqlite_s3_query query) = [].

(** An archive entered without a [URL], and a remote whose one row has a
    NULL [tile_data]. *)
Definition demo_mbtiles_dict_without_url
  : gmap (string * string) (Py.dict value) :=
  {[ ("counties", "1")
     := [("IDENTIFIER", VStr "counties"); ("VERSION", VStr "1")] ]}.

Definition demo_null_remote (query : read_request) : query_outcome :=
  {| rows := [{| column0 := None |}]; failure := None |}.

(** A header of the name [key], names compared without regard to case. *)
Definition named (key : string) (header : string * string) : bool :=
  String.eqb (Py.lower (fst header)) (Py.lower key).

(** An archive of the configuration that can be put in the catalog: a dict
    whose ['IDENTIFIER'] and ['VERSION'] are strings. *)
Definition has_catalog_key (mbtile : value) : Prop :=
  exists d i v,
    mbtile = VDict d /\ Py.dict_get d "IDENTIFIER" = Some (VStr i) /\
    Py.dict_get d "VERSION" = Some (VStr v).

(** Two more pieces of the small world: a second archive under the key of
    the first, a file system that knows one font only, and a style request
    that names its tiles twice. *)
Definition demo_older_mbtile : Py.dict value :=
  [("IDENTIFIER", VStr "counties"); ("VERSION", VStr "1");
   ("URL", VStr "https://bucket.example/older.mbtiles")].

Definition demo_other_read (path : string) : result bytes :=
  if String.eqb path "/tmp/fonts/A/0-255.pbf.gz" then Return [x01]
  else Raise (OSError 13).

Definition demo_repeating_request : Request :=
  {| args := [("tiles", "counties@1"); ("fonts", "fonts-gl@2.0");
              ("tiles", "rivers@2")];
     url_root := "http://localhost:8080/" |}.

Definition demo_null_loads (_ : bytes) : result json := Return JNull.

(** ** Facts about the Python primitives *)

Section StrFacts.

Lemma length_append (s t : string) :
  String.length (s +:+ t) = (String.length s + String.length t)%nat.
Proof.
  induction s as [|c s IH]; [reflexivity|].
  change (String c s +:+ t) with (String c (s +:+ t)).
  cbn [String.length]. now rewrite IH.
Qed.

Lemma startswith_length (p s : string) :
  Py.startswith p s = true -> (String.length p <= String.length s)%nat.
Proof.
  revert s. induction p as [|a p IH]; intros s H; cbn; [lia|].
  destruct s as [|b s]; cbn in H; [discriminate|].
  apply andb_true_iff in H as [_ H]. apply IH in H. cbn. lia.
Qed.

Lemma split_from_cons (sep : string) (skip : nat) (s : string) :
  exists h t, Py.split_from sep skip s = h :: t.
Proof.
  revert skip. induction s as [|c s IH]; intros skip; cbn [Py.split_from].
  - eauto.
  - destruct skip as [|k]; [|apply IH].
    destruct (Py.startswith sep (String c s)); [eauto|].
    destruct (IH 0%nat) as (h & t & ->). eauto.
Qed.

Lemma join_cons_char (sep : string) (c : ascii) (h : string) (t : list string) :
  Py.join sep (String c h :: t) = String c (Py.join sep (h :: t)).
Proof. destruct t; reflexivity. Qed.

(** Joining what [split] cut gives back a text of the same length. *)
Lemma length_join_split_from (sep : string) (skip : nat) (s : string) :
  sep <> "" -> (skip <= String.length s)%nat ->
  (String.length (Py.join sep (Py.split_from sep skip s)) + skip)%nat
  = String.length s.
Proof.
  intros Hsep. revert skip.
  induction s as [|c s IH]; intros skip Hskip; cbn [Py.split_from].
  - cbn in *. lia.
  - destruct skip as [|k].
    + destruct (Py.startswith sep (String c s)) eqn:Hpre.
      * apply startswith_length in Hpre.
        destruct sep as [|a sep]; [congruence|]. cbn in Hpre.
        cbn [String.length]. replace (S (String.length sep) - 1)%nat
          with (String.length sep) by lia.
        specialize (IH (String.length sep) ltac:(lia)).
        destruct (split_from_cons (String a sep) (String.length sep) s)
          as (h & t & E). rewrite E in IH |- *.
        change (Py.join (String a sep) ("" :: h :: t))
          with ("" +:+ String a sep +:+ Py.join (String a sep) (h :: t)).
        rewrite !length_append. cbn [String.length]. lia.
      * specialize (IH 0%nat ltac:(lia)).
        destruct (split_from_cons sep 0 s) as (h & t & E).
        rewrite E in IH |- *. rewrite join_cons_char.
        cbn [String.length]. lia.
    + cbn [String.length] in *. specialize (IH k ltac:(lia)). lia.
Qed.

Lemma truthy_true (s : string) : Py.truthy s = true <-> s <> "".
Proof.
  unfold Py.truthy. rewrite negb_true_iff. apply String.eqb_neq.
Qed.

End StrFacts.

Section DictFacts.
Context {V : Type}.
Implicit Types (d : Py.dict V) (k : string) (v : V).

Lemma dict_get_set d k v k' :
  Py.dict_get (Py.dict_set d k v) k'
  = if String.eqb k k' then Some v else Py.dict_get d k'.
Proof.
  induction d as [|[k1 v1] d IH]; cbn; [reflexivity|].
  destruct (String.eqb_spec k1 k) as [->|Hne]; cbn.
  - destruct (String.eqb k k'); reflexivity.
  - rewrite IH. destruct (String.eqb_spec k1 k') as [->|]; [|reflexivity].
    destruct (String.eqb_spec k k'); congruence.
Qed.

Lemma dict_set_keys d k v k' :
  k' ∈ map fst (Py.dict_set d k v) <-> k' = k \/ k' ∈ map fst d.
Proof.
  induction d as [|[k1 v1] d IH]; cbn.
  - rewrite list_elem_of_singleton, elem_of_nil. tauto.
  - destruct (String.eqb_spec k1 k) as [->|Hne]; cbn;
      rewrite !elem_of_cons; [tauto|]. rewrite IH. tauto.
Qed.

Lemma dict_set_NoDup d k v :
  NoDup (map fst d) -> NoDup (map fst (Py.dict_set d k v)).
Proof.
  induction d as [|[k1 v1] d IH]; cbn; intros Hd.
  - apply NoDup_singleton.
  - apply NoDup_cons in Hd as [Hk1 Hd].
    destruct (String.eqb_spec k1 k) as [->|Hne]; cbn.
    + apply NoDup_cons; auto.
    + apply NoDup_cons. split; [|auto].
      rewrite dict_set_keys. intros [->|?]; congruence.
Qed.

Lemma dict_update_keys items d k :
  k ∈ map fst (Py.dict_update d items)
  <-> k ∈ map fst d \/ k ∈ map fst items.
Proof.
  unfold Py.dict_update. revert d.
  induction items as [|[k1 v1] items IH]; intros d; cbn.
  - rewrite elem_of_nil. tauto.
  - rewrite IH, dict_set_keys, elem_of_cons. tauto.
Qed.

Lemma dict_update_NoDup items d :
  NoDup (map fst d) -> NoDup (map fst (Py.dict_update d items)).
Proof.
  unfold Py.dict_update. revert d.
  induction items as [|[k1 v1] items IH]; intros d Hd; cbn; [assumption|].
  apply IH, dict_set_NoDup, Hd.
Qed.

Lemma dict_of_keys (items : list (string * V)) k :
  k ∈ map fst (Py.dict_of items) <-> k ∈ map fst items.
Proof.
  unfold Py.dict_of. rewrite dict_update_keys. cbn.
  rewrite elem_of_nil. tauto.
Qed.

Lemma dict_of_NoDup (items : list (string * V)) :
  NoDup (map fst (Py.dict_of items)).
Proof. apply dict_update_NoDup. cbn. apply NoDup_nil_2. Qed.

(** Updating with items that do not name [k] leaves [d[k]] as it was. *)
Lemma dict_get_update_other items d k :
  k ∉ map fst items ->
  Py.dict_get (Py.dict_update d items) k = Py.dict_get d k.
Proof.
  unfold Py.dict_update. revert d.
  induction items as [|[k1 v1] items IH]; intros d Hk; cbn; [reflexivity|].
  cbn in Hk. apply not_elem_of_cons in Hk as [Hne Hk].
  rewrite IH by assumption. rewrite dict_get_set.
  destruct (String.eqb_spec k1 k); congruence.
Qed.


Lemma dict_get_elem d k v : Py.dict_get d k = Some v -> (k, v) ∈ d.
Proof.
  induction d as [|[k1 v1] d IH]; cbn; [discriminate|].
  destruct (String.eqb_spec k1 k) as [->|]; intros H.
  - injection H as ->. apply elem_of_cons. now left.
  - apply elem_of_cons. right. auto.
Qed.

Lemma dict_get_unique d k v :
  NoDup (map fst d) -> (k, v) ∈ d -> Py.dict_get d k = Some v.
Proof.
  induction d as [|[k1 v1] d IH]; cbn; intros Hnd Hin.
  - apply elem_of_nil in Hin as [].
  - apply NoDup_cons in Hnd as [Hk1 Hnd].
    apply elem_of_cons in Hin as [[= -> ->]|Hin].
    + now rewrite String.eqb_refl.
    + destruct (String.eqb_spec k1 k) as [->|]; [|auto].
      exfalso. apply Hk1.
      apply list_elem_of_In, in_map_iff. exists (k, v).
      split; [reflexivity | now apply list_elem_of_In].
Qed.

End DictFacts.

Section SortFacts.
Context {A K : Type} (leb : K -> K -> bool) (key : A -> K).
Hypothesis leb_total : forall a b, leb a b = true \/ leb b a = true.
Hypothesis leb_trans :
  forall a b c, leb a b = true -> leb b c = true -> leb a c = true.

Lemma insert_sorted_perm (x : A) (l : list A) :
  Permutation (Py.insert_sorted leb key x l) (x :: l).
Proof.
  induction l as [|y l IH]; cbn; [reflexivity|].
  destruct (leb (key x) (key y)); [reflexivity|].
  rewrite IH. apply perm_swap.
Qed.

Lemma sorted_perm (l : list A) : Permutation (Py.sorted leb key l) l.
Proof.
  induction l as [|x l IH]; cbn; [reflexivity|].
  rewrite insert_sorted_perm. now apply perm_skip.
Qed.

Lemma insert_sorted_strongly (x : A) (l : list A) :
  StronglySorted (key_le leb key) l ->
  StronglySorted (key_le leb key) (Py.insert_sorted leb key x l).
Proof.
  induction 1 as [|y l Hl IH Hy]; cbn.
  - repeat constructor.
  - destruct (leb (key x) (key y)) eqn:Hxy.
    + constructor; [now constructor|]. constructor; [exact Hxy|].
      eapply Forall_impl; [exact Hy|]. intros z Hz.
      unfold key_le in *. eauto.
    + constructor; [exact IH|].
      eapply Permutation_Forall; [symmetry; apply insert_sorted_perm|].
      constructor; [|exact Hy].
      unfold key_le. destruct (leb_total (key x) (key y)); congruence.
Qed.

Lemma sorted_strongly (l : list A) :
  StronglySorted (key_le leb key) (Py.sorted leb key l).
Proof.
  induction l as [|x l IH]; cbn; [constructor|].
  now apply insert_sorted_strongly.
Qed.

End SortFacts.

Section GroupFacts.
Context {A : Type} (key : A -> string).

Lemma string_leb_refl (s : string) : String.leb s s = true.
Proof.
  pose proof (String.leb_total s s) as [H|H]; exact H.
Qed.

Lemma string_leb_trans (a b c : string) :
  String.leb a b = true -> String.leb b c = true -> String.leb a c = true.
Proof.
  intros Hab Hbc. apply Is_true_true.
  apply (PreOrder_Transitive (R := String.le) a b c); now apply Is_true_true.
Qed.

(** [sorted] is stable: the items of one key keep their order. *)
Lemma filter_insert_sorted (k : string) (x : A) (l : list A) :
  List.filter (has_key key k) (Py.insert_sorted String.leb key x l)
  = List.filter (has_key key k) (x :: l).
Proof.
  induction l as [|y l IH]; [reflexivity|].
  cbn [Py.insert_sorted].
  destruct (String.leb (key x) (key y)) eqn:Hxy; [reflexivity|].
  cbn [List.filter] in *. rewrite IH.
  unfold has_key.
  destruct (String.eqb_spec (key x) k) as [Hx|]; [|reflexivity].
  destruct (String.eqb_spec (key y) k) as [Hy|]; [|reflexivity].
  rewrite Hx, Hy, string_leb_refl in Hxy. discriminate.
Qed.

Lemma filter_sorted (k : string) (l : list A) :
  List.filter (has_key key k) (Py.sorted String.leb key l)
  = List.filter (has_key key k) l.
Proof.
  induction l as [|x l IH]; [reflexivity|].
  cbn [Py.sorted foldr]. rewrite filter_insert_sorted.
  cbn [List.filter]. fold (Py.sorted String.leb key l). now rewrite IH.
Qed.

Lemma groupby_head (x : A) (l : list A) :
  exists g gs, Py.groupby key (x :: l) = (key x, g) :: gs.
Proof.
  cbn. destruct (Py.groupby key l) as [|[k g] gs]; [eauto|].
  destruct (String.eqb_spec (key x) k) as [->|]; eauto.
Qed.

Lemma groupby_covers (x : A) (l : list A) :
  x ∈ l -> exists g, (key x, g) ∈ Py.groupby key l.
Proof.
  induction l as [|y l IH]; intros Hx; [now apply elem_of_nil in Hx|].
  apply elem_of_cons in Hx as [->|Hx].
  - destruct (groupby_head y l) as (g & gs & ->).
    exists g. apply elem_of_cons. now left.
  - destruct (IH Hx) as (g & Hg). cbn.
    destruct (Py.groupby key l) as [|[k g0] gs];
      [now apply elem_of_nil in Hg|].
    destruct (String.eqb_spec (key y) k) as [Hk|Hk].
    + apply elem_of_cons in Hg as [[= -> ->]|Hg].
      * eexists. apply elem_of_cons. left. reflexivity.
      * exists g. apply elem_of_cons. now right.
    + exists g. apply elem_of_cons. now right.
Qed.

Lemma sorted_no_later_key (x y : A) (l : list A) :
  StronglySorted (key_le String.leb key) (x :: y :: l) -> key x <> key y ->
  forall z, z ∈ y :: l -> key z <> key x.
Proof.
  intros Hs Hxy z Hz Hzx.
  apply StronglySorted_inv in Hs as [Hs Hx].
  apply StronglySorted_inv in Hs as [_ Hy].
  assert (String.leb (key x) (key y) = true) as Hle
    by (inversion Hx; assumption).
  apply elem_of_cons in Hz as [->|Hz]; [congruence|].
  rewrite Forall_forall in Hy.
  apply Hy in Hz. unfold key_le in Hz. rewrite Hzx in Hz.
  apply Hxy. now apply String.leb_antisym.
Qed.

Lemma filter_head (f : A -> bool) (x : A) (l : list A) :
  List.filter f (x :: l)
  = if f x then x :: List.filter f l else List.filter f l.
Proof. reflexivity. Qed.

Lemma filter_none (f : A -> bool) (l : list A) :
  (forall z, z ∈ l -> f z = false) -> List.filter f l = [].
Proof.
  induction l as [|x l IH]; intros H; [reflexivity|].
  rewrite filter_head, (H x) by (apply elem_of_cons; now left).
  apply IH. intros z Hz. apply H, elem_of_cons. now right.
Qed.

(** In a list sorted by key, each key has one group: its items, in order. *)
Lemma groupby_sorted (l : list A) :
  StronglySorted (key_le String.leb key) l ->
  NoDup (map fst (Py.groupby key l)) /\
  forall k g, (k, g) ∈ Py.groupby key l ->
    g = List.filter (has_key key k) l /\ g <> [].
Proof.
  induction l as [|x l IH]; intros Hs.
  - cbn. split; [apply NoDup_nil_2|]. intros k g H.
    now apply elem_of_nil in H.
  - pose proof Hs as Hs'. apply StronglySorted_inv in Hs' as [Hl Hx].
    destruct (IH Hl) as [IHnd IHg]. clear IH.
    assert (Hkeys : forall k g, (k, g) ∈ Py.groupby key l ->
              exists z, z ∈ l /\ key z = k).
    { intros k g Hg. destruct (IHg k g Hg) as [-> Hne].
      destruct (List.filter (has_key key k) l) as [|z zs] eqn:E; [congruence|].
      assert (In z (List.filter (has_key key k) l)) as Hz
        by (rewrite E; now left).
      apply filter_In in Hz as [Hz Hk]. exists z.
      split; [now apply list_elem_of_In | now apply String.eqb_eq]. }
    cbn [Py.groupby].
    destruct (Py.groupby key l) as [|[k0 g0] gs] eqn:E.
    + destruct l as [|y l].
      * cbn. split; [apply NoDup_singleton|]. intros k g Hg.
        apply list_elem_of_singleton in Hg as [= -> ->].
        unfold has_key. now rewrite String.eqb_refl.
      * destruct (groupby_head y l) as (g & gs & E'). congruence.
    + destruct l as [|y l]; [discriminate|].
      destruct (groupby_head y l) as (g' & gs' & E').
      rewrite E' in E. injection E as <- -> ->.
      destruct (String.eqb_spec (key x) (key y)) as [Hxy|Hxy].
      * split; [exact IHnd|]. intros k g Hg.
        apply elem_of_cons in Hg as [[= -> ->]|Hg].
        -- destruct (IHg (key y) g0) as [Hg0 _];
             [apply elem_of_cons; now left|].
           split; [|discriminate]. rewrite filter_head.
           unfold has_key at 1. apply String.eqb_eq in Hxy.
           rewrite Hxy. now rewrite <- Hg0.
        -- destruct (IHg k g) as [Hgk Hne];
             [apply elem_of_cons; now right|].
           split; [|exact Hne]. rewrite filter_head.
           unfold has_key at 1.
           destruct (String.eqb_spec (key x) k) as [Hk|]; [|exact Hgk].
           exfalso. cbn in IHnd. apply NoDup_cons in IHnd as [Hnot _].
           apply Hnot. apply list_elem_of_In, in_map_iff.
           exists (k, g). split; [cbn; congruence|].
           now apply list_elem_of_In.
      * assert (Hfresh : forall z, z ∈ y :: l -> key z <> key x)
          by (now apply sorted_no_later_key).
        split.
        -- apply (NoDup_cons_2 (key x) (map fst ((key y, g0) :: gs)));
             [|exact IHnd].
           intros Hin. apply list_elem_of_In, in_map_iff in Hin
             as ([k g] & Hk & Hg). cbn in Hk. subst k.
           apply list_elem_of_In in Hg.
           destruct (Hkeys _ _ Hg) as (z & Hz & Hzk).
           exact (Hfresh z Hz Hzk).
        -- intros k g Hg. apply elem_of_cons in Hg as [[= -> ->]|Hg].
           ++ split; [|discriminate]. rewrite filter_head.
              unfold has_key at 1. rewrite String.eqb_refl. f_equal.
              symmetry. apply filter_none. intros z Hz.
              apply Hfresh in Hz.
              unfold has_key. now apply String.eqb_neq.
           ++ destruct (IHg k g Hg) as [Hgk Hne].
              split; [|exact Hne]. rewrite filter_head.
              unfold has_key at 1.
              destruct (String.eqb_spec (key x) k) as [Hk|]; [|exact Hgk].
              exfalso. destruct (Hkeys _ _ Hg) as (z & Hz & Hzk).
              apply (Hfresh z Hz). congruence.
Qed.

End GroupFacts.

(** ** Facts about the decoder *)

Lemma separator_nonempty : separator <> "".
Proof. discriminate. Qed.

(** What is left after the first component is shorter than the key. *)
Lemma later_components_shorter (key : string) :
  Py.truthy (get_later_components key) = true ->
  (String.length (get_later_components key) < String.length key)%nat.
Proof.
  unfold get_later_components, Py.split. intros Hlater.
  pose proof (length_join_split_from separator 0 key separator_nonempty
                ltac:(lia)) as Hlen.
  destruct (split_from_cons separator 0 key) as (h & t & E).
  rewrite E in Hlater, Hlen |- *. cbn [tl] in *.
  destruct t as [|h' t]; [discriminate|].
  change (Py.join separator (h :: h' :: t))
    with (h +:+ separator +:+ Py.join separator (h' :: t)) in Hlen.
  rewrite !length_append in Hlen. cbn [separator String.length] in Hlen. lia.
Qed.

Lemma elem_of_keys {V : Type} (d : list (string * V)) (k : string) :
  k ∈ map fst d <-> exists v, (k, v) ∈ d.
Proof.
  rewrite list_elem_of_In, in_map_iff. split.
  - intros ([k' v] & <- & H). exists v. now apply list_elem_of_In.
  - intros (v & H). exists (k, v). split; [reflexivity|].
    now apply list_elem_of_In.
Qed.

Lemma with_more_components_keys (key_values : Py.dict string) (k : string) :
  k ∈ map fst (with_more_components key_values)
  <-> k ∈ map fst key_values /\ Py.truthy (get_later_components k) = true.
Proof.
  unfold with_more_components. rewrite dict_of_keys, !elem_of_keys. split.
  - intros (v & H). apply list_elem_of_In, filter_In in H as [H Ht].
    split; [|exact Ht]. exists v. now apply list_elem_of_In.
  - intros [(v & H) Ht]. exists v. apply list_elem_of_In, filter_In.
    split; [now apply list_elem_of_In | exact Ht].
Qed.

Lemma without_more_components_keys (key_values : Py.dict string) (k : string) :
  k ∈ map fst (without_more_components key_values)
  <-> k ∈ map fst key_values /\ Py.truthy (get_later_components k) = false.
Proof.
  unfold without_more_components. rewrite dict_of_keys, !elem_of_keys. split.
  - intros (v & H). apply list_elem_of_In, filter_In in H as [H Ht].
    cbn in Ht. apply negb_true_iff in Ht.
    split; [|exact Ht]. exists v. now apply list_elem_of_In.
  - intros [(v & H) Ht]. exists v. apply list_elem_of_In, filter_In.
    split; [now apply list_elem_of_In | cbn; now rewrite Ht].
Qed.

(** The groups of one level: one per first component, each holding the
    items of that component in the order of the input. *)
Lemma grouped_by_first_component_spec (items : list (string * string)) :
  NoDup (map fst (grouped_by_first_component items)) /\
  forall fc g, (fc, g) ∈ grouped_by_first_component items ->
    g = List.filter (has_key by_first_component fc) items /\ g <> [].
Proof.
  unfold grouped_by_first_component.
  destruct (groupby_sorted by_first_component
              (Py.sorted String.leb by_first_component items)) as [Hnd Hg].
  { apply sorted_strongly; [apply String.leb_total | apply string_leb_trans]. }
  split; [exact Hnd|]. intros fc g H. destruct (Hg fc g H) as [-> Hne].
  rewrite filter_sorted in Hne |- *. now split.
Qed.

Lemma grouped_by_first_component_covers (items : list (string * string))
    (item : string * string) :
  item ∈ items ->
  exists g, (by_first_component item, g) ∈ grouped_by_first_component items.
Proof.
  intros H. apply groupby_covers.
  rewrite (sorted_perm String.leb by_first_component items). exact H.
Qed.

Lemma filter_twice {A : Type} (f : A -> bool) (l : list A) :
  List.filter f (List.filter f l) = List.filter f l.
Proof.
  induction l as [|x l IH]; [reflexivity|]. cbn.
  destruct (f x) eqn:E; cbn; rewrite ?E, IH; reflexivity.
Qed.

(** The items a group hands to the recursive call are those of the whole
    level under that first component. *)
Lemma items_with_first_component_group (items : list (string * string))
    (fc : string) (g : list (string * string)) :
  (fc, g) ∈ grouped_by_first_component items ->
  items_with_first_component g fc = items_with_first_component items fc.
Proof.
  intros H. destruct (grouped_by_first_component_spec items) as [_ Hg].
  destruct (Hg fc g H) as [-> _]. unfold items_with_first_component.
  change (fun kv : string * string =>
            String.eqb (get_first_component (fst kv)) fc)
    with (has_key by_first_component fc).
  now rewrite filter_twice.
Qed.

Lemma items_with_first_component_below (n : nat)
    (key_values : Py.dict string) (fc : string) :
  keys_below (S n) key_values ->
  keys_below n
    (items_with_first_component (with_more_components key_values) fc).
Proof.
  intros Hkv k Hk. unfold items_with_first_component in Hk.
  rewrite dict_of_keys in Hk.
  apply list_elem_of_In, in_map_iff in Hk as ([k' v'] & Hk' & Hin).
  apply in_map_iff in Hin as ([k0 v0] & [= <- <-] & Hin).
  cbn in Hk'. subst k. apply filter_In in Hin as [Hin _].
  assert (k0 ∈ map fst (with_more_components key_values)) as Hk0.
  { apply elem_of_keys. exists v0. now apply list_elem_of_In. }
  apply with_more_components_keys in Hk0 as [Hk0 Ht].
  apply later_components_shorter in Ht. apply Hkv in Hk0. lia.
Qed.

Lemma key_bound_below (key_values : Py.dict string) :
  keys_below (key_bound key_values) key_values.
Proof.
  intros k Hk. unfold key_bound.
  apply list_elem_of_In, in_map_iff in Hk as ([k' v] & <- & Hin).
  pose proof (proj1 (list_max_le
    (map (fun kv : string * string => String.length (fst kv)) key_values) _)
    (Nat.le_refl _)) as Hall.
  rewrite List.Forall_forall in Hall.
  specialize (Hall (String.length k')). cbn.
  assert (String.length k' <=
    list_max (map (fun kv : string * string => String.length (fst kv))
                key_values))%nat; [|lia].
  apply Hall, in_map_iff. exists (k', v). now split.
Qed.

Lemma list_sorted_by_int_key_total (nested : Py.dict value) :
  all_keys_are_ints nested = true -> is_Some (list_sorted_by_int_key nested).
Proof.
  intros Hall. unfold list_sorted_by_int_key.
  assert (is_Some (mapM (fun kv : string * value =>
            n ← Py.int (fst kv); Some (n, kv)) nested)) as [keyed ->];
    [|cbn; eauto].
  apply mapM_is_Some, Forall_forall. intros kv Hkv. cbn.
  unfold all_keys_are_ints in Hall. rewrite forallb_forall in Hall.
  apply list_elem_of_In, Hall in Hkv. unfold is_int in Hkv.
  destruct (Py.int (fst kv)); [cbn; eauto | discriminate].
Qed.

Lemma emit_total (nested : Py.dict value) : is_Some (emit nested).
Proof.
  unfold emit. destruct (all_keys_are_ints nested) eqn:Hall; [|eauto].
  destruct (list_sorted_by_int_key_total nested Hall) as [l ->]. cbn. eauto.
Qed.

(** The dict of one level depends on the recursive call only through the
    values it gives. *)
Lemma nested_structured_dict_mono
    (f g : Py.dict string -> option value) (key_values : Py.dict string)
    (nested : Py.dict value) :
  (forall d v, f d = Some v -> g d = Some v) ->
  nested_structured_dict f key_values = Some nested ->
  nested_structured_dict g key_values = Some nested.
Proof.
  intros Hfg. unfold nested_structured_dict.
  destruct (mapM _ _) as [groups|] eqn:Hf; [|discriminate].
  intros Hn. cbn in Hn.
  assert (mapM (fun gr : string * list (string * string) =>
                  v ← g (items_with_first_component (snd gr) (fst gr));
                  Some (fst gr, v))
            (grouped_by_first_component (with_more_components key_values))
          = Some groups) as ->; [|exact Hn].
  apply mapM_Some. apply mapM_Some in Hf.
  eapply Forall2_impl; [exact Hf|]. intros gr r Hr. cbn in Hr |- *.
  destruct (f (items_with_first_component (snd gr) (fst gr))) as [v|] eqn:E;
    [|discriminate].
  now rewrite (Hfg _ _ E).
Qed.

Lemma normalise_fuel_step (fuel : nat) (key_values : Py.dict string) :
  normalise_fuel (S fuel) key_values
  = nested_structured_dict (normalise_fuel fuel) key_values ≫= emit.
Proof. reflexivity. Qed.

Lemma normalise_fuel_S (fuel : nat) (key_values : Py.dict string) (v : value) :
  normalise_fuel fuel key_values = Some v ->
  normalise_fuel (S fuel) key_values = Some v.
Proof.
  revert key_values v. induction fuel as [|n IH]; intros kv v H;
    [discriminate|].
  rewrite normalise_fuel_step in H. rewrite (normalise_fuel_step (S n)).
  destruct (nested_structured_dict (normalise_fuel n) kv) as [nested|] eqn:E;
    [|discriminate].
  now rewrite (nested_structured_dict_mono _ _ _ _ IH E).
Qed.

Lemma normalise_fuel_le (n m : nat) (key_values : Py.dict string) (v : value) :
  (n <= m)%nat ->
  normalise_fuel n key_values = Some v -> normalise_fuel m key_values = Some v.
Proof.
  induction 1 as [|m Hle IH]; [trivial|].
  intros H. now apply normalise_fuel_S, IH.
Qed.

(** With fuel above the length of every key the decoder gives a value. *)
Lemma normalise_fuel_total (n : nat) (key_values : Py.dict string) :
  keys_below n key_values -> is_Some (normalise_fuel (S n) key_values).
Proof.
  revert key_values. induction n as [|n IH]; intros kv Hkv.
  - destruct kv as [|[k v] kv].
    + cbn. eauto.
    + specialize (Hkv k ltac:(cbn; apply elem_of_cons; now left)). lia.
  - rewrite normalise_fuel_step.
    assert (is_Some (nested_structured_dict (normalise_fuel (S n)) kv))
      as [nested ->]; [|cbn; apply emit_total].
    unfold nested_structured_dict.
    assert (is_Some (mapM (fun gr : string * list (string * string) =>
              v ← normalise_fuel (S n)
                    (items_with_first_component (snd gr) (fst gr));
              Some (fst gr, v))
            (grouped_by_first_component (with_more_components kv))))
      as [groups ->]; [|cbn; eauto].
    apply mapM_is_Some, Forall_forall. intros [fc g] Hg.
    unfold compose. cbn [fst snd].
    rewrite (items_with_first_component_group _ _ _ Hg).
    destruct (IH (items_with_first_component (with_more_components kv) fc))
      as [v ->]; [|cbn; eauto].
    now apply items_with_first_component_below.
Qed.

(** The decoder is total. *)
Lemma normalise_environment_total (key_values : Py.dict string) :
  is_Some (normalise_environment key_values).
Proof. apply normalise_fuel_total, key_bound_below. Qed.

Lemma normalise_fuel_environment (fuel : nat) (key_values : Py.dict string)
    (v : value) :
  normalise_fuel fuel key_values = Some v ->
  normalise_environment key_values = Some v.
Proof.
  intros H. destruct (normalise_environment_total key_values) as [v' Hv'].
  rewrite Hv'. unfold normalise_environment in Hv'.
  apply (normalise_fuel_le _ (fuel + S (key_bound key_values))) in H; [|lia].
  apply (normalise_fuel_le _ (fuel + S (key_bound key_values))) in Hv'; [|lia].
  congruence.
Qed.

(** The equation of the source: one level is grouped with the decoder
    itself as the recursive call, then emitted. *)
Lemma normalise_environment_eq (key_values : Py.dict string) :
  normalise_environment key_values
  = nested_structured_dict normalise_environment key_values ≫= emit.
Proof.
  destruct (normalise_environment_total key_values) as [v Hv]. rewrite Hv.
  unfold normalise_environment in Hv. rewrite normalise_fuel_step in Hv.
  destruct (nested_structured_dict _ key_values) as [nested|] eqn:E;
    [|discriminate].
  rewrite (nested_structured_dict_mono _ normalise_environment _ _
             (normalise_fuel_environment _) E).
  symmetry. exact Hv.
Qed.

Lemma normalise_environment_level (key_values : Py.dict string) :
  exists nested out,
    nested_structured_dict normalise_environment key_values = Some nested /\
    emit nested = Some out /\
    normalise_environment key_values = Some out.
Proof.
  destruct (normalise_environment_total key_values) as [out Hout].
  pose proof (normalise_environment_eq key_values) as Heq.
  rewrite Hout in Heq.
  destruct (nested_structured_dict normalise_environment key_values)
    as [nested|]; [|discriminate].
  exists nested, out. cbn in Heq. auto.
Qed.

Lemma normalise_environment_not_str (key_values : Py.dict string) (s : string) :
  normalise_environment key_values <> Some (VStr s).
Proof.
  destruct (normalise_environment_level key_values)
    as (nested & out & _ & Hemit & ->).
  unfold emit in Hemit. destruct (all_keys_are_ints nested).
  - destruct (list_sorted_by_int_key nested); cbn in Hemit; congruence.
  - congruence.
Qed.

(** The values the groups get from the recursive calls. *)
Lemma mapM_groups (rec : Py.dict string -> option value)
    (groups : list (string * list (string * string)))
    (decoded : list (string * value)) :
  mapM (fun g : string * list (string * string) =>
          v ← rec (items_with_first_component (snd g) (fst g));
          Some (fst g, v)) groups = Some decoded ->
  map fst decoded = map fst groups /\
  forall fc g, (fc, g) ∈ groups ->
    exists v, rec (items_with_first_component g fc) = Some v
              /\ (fc, v) ∈ decoded.
Proof.
  intros H. apply mapM_Some in H.
  induction H as [|[fc g] r groups decoded Hr _ [IHk IHg]].
  - split; [reflexivity|]. intros fc g Hg. now apply elem_of_nil in Hg.
  - cbn [fst snd] in Hr.
    destruct (rec (items_with_first_component g fc)) as [v|] eqn:E;
      [|discriminate].
    cbn in Hr. injection Hr as <-. split; [cbn; now rewrite IHk|].
    intros fc' g' Hg'. apply elem_of_cons in Hg' as [[= -> ->]|Hg'].
    + exists v. split; [exact E|]. apply elem_of_cons. now left.
    + destruct (IHg fc' g' Hg') as (v' & Hv' & Hin).
      exists v'. split; [exact Hv'|]. apply elem_of_cons. now right.
Qed.

(** *** Ordering by integer key *)

Lemma Z_leb_total (a b : Z) : Z.leb a b = true \/ Z.leb b a = true.
Proof. rewrite !Z.leb_le. lia. Qed.

Lemma Z_leb_trans (a b c : Z) :
  Z.leb a b = true -> Z.leb b c = true -> Z.leb a c = true.
Proof. rewrite !Z.leb_le. lia. Qed.

Lemma keyed_items (nested : Py.dict value) (keyed : list (Z * (string * value))) :
  mapM (fun kv : string * value => n ← Py.int (fst kv); Some (n, kv)) nested
  = Some keyed ->
  map snd keyed = nested /\
  Forall (fun x => Py.int (fst (snd x)) = Some (fst x)) keyed.
Proof.
  intros H. apply mapM_Some in H.
  induction H as [|kv x nested keyed Hx _ [IHm IHf]]; [now split|].
  cbn in Hx. destruct (Py.int (fst kv)) as [n|] eqn:E; [|discriminate].
  cbn in Hx. injection Hx as <-. split; [cbn; now rewrite IHm|].
  constructor; [exact E | exact IHf].
Qed.

Lemma strongly_sorted_int_keys (keyed : list (Z * (string * value))) :
  Forall (fun x => Py.int (fst (snd x)) = Some (fst x)) keyed ->
  StronglySorted (key_le Z.leb fst) keyed ->
  StronglySorted int_key_le (map snd keyed).
Proof.
  intros Hgood Hs. induction Hs as [|x l Hl IH Hx]; [constructor|].
  apply Forall_cons in Hgood as [Hgx Hgl]. cbn. constructor; [auto|].
  apply Forall_forall. intros b Hb.
  apply list_elem_of_In, in_map_iff in Hb as (y & <- & Hy).
  apply list_elem_of_In in Hy.
  rewrite Forall_forall in Hx, Hgl.
  exists (fst x), (fst y). repeat split; auto.
  apply Z.leb_le. exact (Hx y Hy).
Qed.

(** When every key is an integer the list is the values of the level, in
    ascending order of their keys. *)
Lemma list_sorted_by_int_key_spec (nested : Py.dict value) (l : list value) :
  list_sorted_by_int_key nested = Some l ->
  exists items,
    Permutation items nested /\ StronglySorted int_key_le items /\
    l = map snd items.
Proof.
  unfold list_sorted_by_int_key.
  destruct (mapM _ nested) as [keyed|] eqn:E; [|discriminate].
  cbn. intros [= <-]. destruct (keyed_items _ _ E) as [Hm Hgood].
  exists (map snd (Py.sorted Z.leb fst keyed)). split; [|split].
  - rewrite <- Hm. apply Permutation_map, sorted_perm.
  - apply strongly_sorted_int_keys.
    + eapply Permutation_Forall; [|exact Hgood].
      symmetry. apply sorted_perm.
    + apply sorted_strongly; [apply Z_leb_total | apply Z_leb_trans].
  - now rewrite map_map.
Qed.

(** ** The decoder: the claims *)

(** C4, as stated, fails: the one key [-1] is no non-negative integer, yet
    [int] accepts it and the decoder emits a list, not the dict. *)
Lemma C4_negative_key_counterexample :
  ~ emits_as_specified [("-1", "a")].
Proof.
  intros H.
  destruct (H [("-1", VStr "a")] ltac:(vm_compute; reflexivity)) as [_ Hdict].
  assert (normalise_environment [("-1", "a")] = Some (VList [VStr "a"])) as E
    by (vm_compute; reflexivity).
  rewrite E in Hdict.
  enough (Some (VList [VStr "a"]) = Some (VDict [("-1", VStr "a")])) as Habs
    by discriminate.
  apply Hdict. intros Hall.
  destruct (Hall "-1") as (n & Hn & Hpos).
  { cbn. apply elem_of_cons. now left. }
  vm_compute in Hn. injection Hn as <-. lia.
Qed.

(** C4, amended: at every level of the decoding (each recursive call is the
    decoder itself), once the level is grouped, if every key is accepted by
    Python's [int] (signed, so negative keys too) the decoder emits the
    grouped values as a list in ascending order of their integer keys;
    otherwise it emits the dict of the grouped keys. *)
Theorem C4_emit_list_or_dict (key_values : Py.dict string) :
  exists nested,
    nested_structured_dict normalise_environment key_values = Some nested /\
    (all_keys_are_ints nested = true ->
     exists items,
       Permutation items nested /\ StronglySorted int_key_le items /\
       normalise_environment key_values = Some (VList (map snd items))) /\
    (all_keys_are_ints nested = false ->
     normalise_environment key_values = Some (VDict nested)).
Proof.
  destruct (normalise_environment_level key_values)
    as (nested & out & Hn & Hemit & Hout).
  exists nested. split; [exact Hn|]. unfold emit in Hemit. split; intros Hall.
  - rewrite Hall in Hemit.
    destruct (list_sorted_by_int_key nested) as [l|] eqn:El; [|discriminate].
    destruct (list_sorted_by_int_key_spec _ _ El) as (items & Hp & Hs & ->).
    exists items. repeat split; auto. rewrite Hout. exact (eq_sym Hemit).
  - rewrite Hall in Hemit. congruence.
Qed.

(** C10: the decoder applied to the empty mapping returns the empty list,
    not the empty dict. *)
Theorem C10_empty_input_is_empty_list :
  normalise_environment [] = Some (VList []) /\
  normalise_environment [] <> Some (VDict []).
Proof. split; [reflexivity | discriminate]. Qed.

(** ** The server: the claims *)

Section TileClaims.
Variable mbtiles_dict : gmap (string * string) (Py.dict value).
Variable sqlite_s3_query : read_request -> query_outcome.
Variable http_access_control_allow_origin : option string.

Lemma get_tile_resolved (identifier version : string) (mbtiles_url : value)
    (z x y : N) (mbtile : Py.dict value) :
  mbtiles_dict !! (identifier, version) = Some mbtile ->
  Py.dict_get mbtile "URL" = Some mbtiles_url ->
  let query := {| url := mbtiles_url; statement := sql;
                  params := (Z.of_N z, Z.of_N x,
                             2 ^ Z.of_N z - 1 - Z.of_N y) |} in
  get_tile mbtiles_dict sqlite_s3_query identifier version z x y
  = ([query],
     match failure (sqlite_s3_query query) with
     | Some e => Raise e
     | None =>
         Return
           match fold_left (fun _ r => column0 r)
                   (rows (sqlite_s3_query query)) None with
           | Some data => tile_response data
           | None => empty_response 404
           end
     end).
Proof.
  intros Hm Hurl. unfold get_tile. rewrite Hm. cbn. rewrite Hurl.
  reflexivity.
Qed.

(** An entry without a [URL] is answered like an unknown key: the [except]
    of line 106 catches the [KeyError] of either subscript. *)
Lemma get_tile_without_url (identifier version : string) (z x y : N)
    (mbtile : Py.dict value) :
  mbtiles_dict !! (identifier, version) = Some mbtile ->
  Py.dict_get mbtile "URL" = None ->
  get_tile mbtiles_dict sqlite_s3_query identifier version z x y
  = ([], Return (empty_response 404)).
Proof.
  intros Hm Hurl. unfold get_tile. rewrite Hm. cbn. now rewrite Hurl.
Qed.

Lemma last_row (rs : list row) (r : row) (start : option bytes) :
  fold_left (fun _ r => column0 r) (rs ++ [r]) start = column0 r.
Proof. now rewrite fold_left_app. Qed.

(** C1, amended: for a key of the catalog whose entry has a [URL] the
    handler issues one read, of that locator, for [(z, x, 2^z - 1 - y)]
    bound to the three placeholders of the statement that selects
    [tile_data] with [LIMIT 1]; when the read ends without failure, a last
    (with the limit, only) row that carries tile data is answered 200 with
    those bytes, gzip and the vector-tile type, and a row whose [tile_data]
    is NULL or no row at all is answered 404.  For a key of the catalog
    whose entry has no [URL] the handler answers 404 and issues no read. *)
Theorem C1_tile_read_and_response
    (identifier version : string) (z x y : N) (mbtile : Py.dict value) :
  mbtiles_dict !! (identifier, version) = Some mbtile ->
  let result :=
    get_tile mbtiles_dict sqlite_s3_query identifier version z x y in
  match Py.dict_get mbtile "URL" with
  | None => result = ([], Return (empty_response 404))
  | Some mbtiles_url =>
      let query := {| url := mbtiles_url; statement := sql;
                      params := (Z.of_N z, Z.of_N x,
                                 2 ^ Z.of_N z - 1 - Z.of_N y) |} in
      let outcome := sqlite_s3_query query in
      fst result = [query] /\
      String.words (statement query)
      = ["SELECT"; "tile_data"; "FROM"; "tiles"; "WHERE"; "zoom_level=?";
         "AND"; "tile_column=?"; "AND"; "tile_row=?"; "LIMIT"; "1"] /\
      (forall rs r data,
         rows outcome = rs ++ [r] -> column0 r = Some data ->
         failure outcome = None ->
         snd result = Return (tile_response data)) /\
      (forall rs r,
         rows outcome = rs ++ [r] -> column0 r = None ->
         failure outcome = None ->
         snd result = Return (empty_response 404)) /\
      (rows outcome = [] -> failure outcome = None ->
       snd result = Return (empty_response 404))
  end.
Proof.
  intros Hm. cbn zeta.
  destruct (Py.dict_get mbtile "URL") as [mbtiles_url|] eqn:Hurl.
  - rewrite (get_tile_resolved _ _ _ z x y _ Hm Hurl). cbn [fst snd].
    split; [reflexivity|]. split; [reflexivity|]. split; [|split].
    + intros rs r data Hrows Hdata Hfail.
      rewrite Hfail, Hrows, last_row, Hdata. reflexivity.
    + intros rs r Hrows Hdata Hfail.
      rewrite Hfail, Hrows, last_row, Hdata. reflexivity.
    + intros Hrows Hfail. rewrite Hfail, Hrows. reflexivity.
  - now apply get_tile_without_url with mbtile.
Qed.

(** C3, amended: for a key of the catalog whose entry has a [URL], a
    failure of the remote read escapes the handler as that exception, which
    the client sees as a 500, never as a 404; the handler returns 404 only
    for a key the catalog does not have, for an entry without a [URL], or
    for a read that ended without failure and either without a row or with
    a last row whose [tile_data] is NULL. *)
Theorem C3_remote_failure_propagates
    (identifier version : string) (z x y : N) :
  let result :=
    get_tile mbtiles_dict sqlite_s3_query identifier version z x y in
  (forall mbtile mbtiles_url,
     mbtiles_dict !! (identifier, version) = Some mbtile ->
     Py.dict_get mbtile "URL" = Some mbtiles_url ->
     forall query e, fst result = [query] ->
       failure (sqlite_s3_query query) = Some e ->
       snd result = Raise e /\
       500 <= served_status http_access_control_allow_origin (snd result)
           <= 599) /\
  (forall resp, snd result = Return resp -> status resp = 404 ->
     mbtiles_dict !! (identifier, version) = None \/
     (exists mbtile,
        mbtiles_dict !! (identifier, version) = Some mbtile /\
        Py.dict_get mbtile "URL" = None) \/
     exists query,
       fst result = [query] /\
       failure (sqlite_s3_query query) = None /\
       (rows (sqlite_s3_query query) = [] \/
        exists rs r, rows (sqlite_s3_query query) = rs ++ [r] /\
                     column0 r = None)).
Proof.
  cbn zeta. split.
  - intros mbtile mbtiles_url Hm Hurl query e.
    rewrite (get_tile_resolved _ _ _ z x y _ Hm Hurl). cbn [fst snd].
    intros [= <-] Hfail. rewrite Hfail. cbn. split; [reflexivity | lia].
  - intros resp.
    destruct (mbtiles_dict !! (identifier, version)) as [mbtile|] eqn:Hm;
      [|now left].
    destruct (Py.dict_get mbtile "URL") as [mbtiles_url|] eqn:Hurl;
      [|right; left; eauto].
    rewrite (get_tile_resolved _ _ _ z x y _ Hm Hurl). cbn [fst snd].
    intros Hret Hstatus. right. right. eexists. split; [reflexivity|].
    destruct (failure (sqlite_s3_query _)) as [e|]; [discriminate|].
    split; [reflexivity|].
    destruct (rows (sqlite_s3_query _)) as [|r rs _] using rev_ind;
      [now left|].
    right. exists rs, r. split; [reflexivity|].
    rewrite last_row in Hret. destruct (column0 r) as [data|]; [|reflexivity].
    injection Hret as <-. discriminate.
Qed.

End TileClaims.

(** C1, as stated, fails twice: for an archive entered without a [URL] the
    key is in the catalog yet the handler issues no read, and for a row
    whose [tile_data] is NULL a row is returned yet the answer is 404. *)
Lemma C1_counterexample :
  ~ tile_claim_as_stated demo_mbtiles_dict_without_url demo_remote
      "counties" "1" 3 2 2 /\
  ~ tile_claim_as_stated demo_mbtiles_dict demo_null_remote
      "counties" "1" 3 2 2.
Proof.
  split; intros H.
  - destruct H as (query & Hread & _); [now eexists|]. discriminate.
  - destruct H as (query & Hread & _ & Hrow & _); [now eexists|].
    vm_compute in Hread. injection Hread as <-.
    destruct Hrow as [data Hdata]; [discriminate | reflexivity|].
    vm_compute in Hdata. discriminate.
Qed.

(** C3, as stated, fails in its second half: with a returned row whose
    [tile_data] is NULL, and with an archive entered without a [URL], the
    handler returns 404 though the key is known and no read came back
    empty. *)
Lemma C3_counterexample :
  ~ not_found_claim_as_stated demo_mbtiles_dict demo_null_remote
      "counties" "1" 3 2 2 /\
  ~ not_found_claim_as_stated demo_mbtiles_dict_without_url demo_remote
      "counties" "1" 3 2 2.
Proof.
  split; intros H.
  - destruct (H (empty_response 404)) as [Hkey|(query & Hread & Hrows)];
      [reflexivity | reflexivity | discriminate |].
    vm_compute in Hread. injection Hread as <-. discriminate.
  - destruct (H (empty_response 404)) as [Hkey|(query & Hread & _)];
      [reflexivity | reflexivity | discriminate | discriminate].
Qed.

(** C6: for [z >= 0] and [0 <= y < 2^z] the row transform stays in range
    and applied twice gives [y] back. *)
Theorem C6_row_transform_involution (z y : Z) :
  0 <= z -> 0 <= y < 2 ^ z ->
  0 <= y_tms z y < 2 ^ z /\ y_tms z (y_tms z y) = y.
Proof. unfold y_tms. intros Hz Hy. lia. Qed.

Lemma C6_witness :
  0 <= y_tms 3 2 < 2 ^ 3 /\ y_tms 3 (y_tms 3 2) = 2.
Proof. apply (C6_row_transform_involution 3 2); [lia | cbn; lia]. Defined.

Lemma demo_every_archive_has_url : every_archive_has_url demo_mbtiles_dict.
Proof.
  intros key mbtile H. unfold demo_mbtiles_dict in H.
  apply lookup_singleton_Some in H as [_ <-]. now exists
    (VStr "https://bucket.example/counties.mbtiles").
Qed.


Section StyleClaims.
Variable mbtiles_dict : gmap (string * string) (Py.dict value).
Variable styles_dict : gmap (string * string * string) bytes.
Variable fonts_dict : gmap (string * string) string.
Variable json_loads : bytes -> result json.
Variable json_dumps : json -> string.

Local Abbreviation get_styles' :=
  (get_styles mbtiles_dict styles_dict fonts_dict json_loads json_dumps).
Local Abbreviation style_checks' :=
  (style_checks mbtiles_dict styles_dict fonts_dict).

(** C2: the answer to a style request is that of the first check to fail,
    in the order template (404), [tiles] present (400), [tiles] in two
    parts (400), tile source known (404), [fonts] present (400), [fonts]
    in two parts (400), font collection known (404); when none fails the
    handler goes on to compose the document.  So with the template at
    hand a missing or malformed [tiles] is answered 400 whatever [fonts]
    is. *)
Theorem C2_first_failure_wins
    (request : Request) (identifier version file : string) :
  match first_failure (style_checks' request identifier version file) with
  | Some code =>
      get_styles' request identifier version file
      = Return (empty_response code)
  | None =>
      forall resp,
        get_styles' request identifier version file = Return resp ->
        status resp = 200
  end /\
  (present (styles_dict !! (identifier, version, file)) = true ->
   splits_in_two (Py.dict_get (args request) "tiles") = false ->
   get_styles' request identifier version file
   = Return (empty_response 400)).
Proof.
  unfold first_failure, style_checks, get_styles, splits_in_two, refers_into.
  destruct (styles_dict !! (identifier, version, file)) as [style_bytes|];
    [|split; [reflexivity | discriminate]].
  destruct (Py.dict_get (args request) "tiles") as [tiles|];
    [|split; reflexivity].
  destruct (Py.split "@" tiles) as [|ti [|tv [|c l]]];
    try (split; reflexivity).
  destruct (mbtiles_dict !! (ti, tv)) as [mbtile|];
    [|split; [reflexivity | discriminate]].
  destruct (Py.dict_get (args request) "fonts") as [fonts|];
    [|split; [reflexivity | discriminate]].
  destruct (Py.split "@" fonts) as [|fi [|fv [|c l]]];
    try (split; [reflexivity | discriminate]).
  destruct (fonts_dict !! (fi, fv)) as [font_path|];
    [|split; [reflexivity | discriminate]].
  cbn. split; [|discriminate]. intros resp.
  destruct (json_loads style_bytes) as [style_dict|e]; [|discriminate].
  destruct (compose_style _ _ _) as [style_dict'|e]; [|discriminate].
  now intros [= <-].
Qed.

Lemma dict_get_set_other {V : Type} (d : Py.dict V) (k k' : string) (v : V) :
  k' <> k -> Py.dict_get (Py.dict_set d k v) k' = Py.dict_get d k'.
Proof.
  intros Hne. rewrite dict_get_set.
  destruct (String.eqb_spec k k'); congruence.
Qed.

Lemma dict_get_set_same {V : Type} (d : Py.dict V) (k : string) (v : V) :
  Py.dict_get (Py.dict_set d k v) k = Some v.
Proof. now rewrite dict_get_set, String.eqb_refl. Qed.

(** The composed document differs from the template in two places. *)
Lemma compose_style_frame (style_dict source glyphs composed : json) :
  compose_style style_dict source glyphs = Return composed ->
  exists d sources d' sources',
    style_dict = JObj d /\ composed = JObj d' /\
    Py.dict_get d "sources" = Some (JObj sources) /\
    Py.dict_get d' "sources" = Some (JObj sources') /\
    Py.dict_get sources' "openmaptiles" = Some source /\
    (forall k, k <> "openmaptiles" ->
       Py.dict_get sources' k = Py.dict_get sources k) /\
    Py.dict_get d' "glyphs" = Some glyphs /\
    (forall k, k <> "sources" -> k <> "glyphs" ->
       Py.dict_get d' k = Py.dict_get d k).
Proof.
  unfold compose_style. destruct style_dict as [| | | | | |d]; try discriminate.
  destruct (Py.dict_get d "sources") as [[| | | | | |sources]|] eqn:Hs;
    try discriminate.
  intros [= <-].
  exists d, sources,
    (Py.dict_set
       (Py.dict_set d "sources"
          (JObj (Py.dict_set sources "openmaptiles" source)))
       "glyphs" glyphs),
    (Py.dict_set sources "openmaptiles" source).
  split; [reflexivity|]. split; [reflexivity|]. split; [exact Hs|].
  split; [|split; [|split; [|split]]].
  - rewrite dict_get_set_other by discriminate. apply dict_get_set_same.
  - apply dict_get_set_same.
  - intros k Hk. now apply dict_get_set_other.
  - apply dict_get_set_same.
  - intros k Hs' Hg. now rewrite !dict_get_set_other.
Qed.

(** C9: the document of a successful style response is the deserialized
    template with the [openmaptiles] entry of its [sources] and its
    top-level [glyphs] set; every other entry of [sources] and every other
    top-level field is that of the template. *)
Theorem C9_style_document_frame
    (request : Request) (identifier version file : string) (resp : Response) :
  get_styles' request identifier version file = Return resp ->
  status resp = 200 ->
  exists style_bytes tiles fonts d sources d' sources',
    styles_dict !! (identifier, version, file) = Some style_bytes /\
    Py.dict_get (args request) "tiles" = Some tiles /\
    Py.dict_get (args request) "fonts" = Some fonts /\
    json_loads style_bytes = Return (JObj d) /\
    response resp = Some (Text (json_dumps (JObj d'))) /\
    Py.dict_get d "sources" = Some (JObj sources) /\
    Py.dict_get d' "sources" = Some (JObj sources') /\
    Py.dict_get sources' "openmaptiles"
    = Some (openmaptiles_source request tiles) /\
    (forall k, k <> "openmaptiles" ->
       Py.dict_get sources' k = Py.dict_get sources k) /\
    Py.dict_get d' "glyphs" = Some (glyphs_url request fonts) /\
    (forall k, k <> "sources" -> k <> "glyphs" ->
       Py.dict_get d' k = Py.dict_get d k).
Proof.
  unfold get_styles. intros Hret Hstatus.
  destruct (styles_dict !! (identifier, version, file)) as [style_bytes|];
    [|injection Hret as <-; discriminate].
  destruct (Py.dict_get (args request) "tiles") as [tiles|];
    [|injection Hret as <-; discriminate].
  destruct (Py.split "@" tiles) as [|ti [|tv [|c l]]];
    try (injection Hret as <-; discriminate).
  destruct (mbtiles_dict !! (ti, tv)) as [mbtile|];
    [|injection Hret as <-; discriminate].
  destruct (Py.dict_get (args request) "fonts") as [fonts|];
    [|injection Hret as <-; discriminate].
  destruct (Py.split "@" fonts) as [|fi [|fv [|c l]]];
    try (injection Hret as <-; discriminate).
  destruct (fonts_dict !! (fi, fv)) as [font_path|];
    [|injection Hret as <-; discriminate].
  destruct (json_loads style_bytes) as [style_dict|e] eqn:Hloads;
    [|discriminate].
  destruct (compose_style _ _ _) as [composed|e] eqn:Hcompose;
    [|discriminate].
  injection Hret as <-.
  destruct (compose_style_frame _ _ _ _ Hcompose)
    as (d & sources & d' & sources' & -> & -> & H1 & H2 & H3 & H4 & H5 & H6).
  exists style_bytes, tiles, fonts, d, sources, d', sources'.
  repeat split; auto.
Qed.

End StyleClaims.

Section FontClaims.
Variable fonts_dict : gmap (string * string) string.
Variable read : string -> result bytes.

(** C7: a stack or a range with a [.] in it is answered 404, whether the
    font collection exists or not. *)
Theorem C7_dot_is_not_found (identifier version stack range : string) :
  Py.contains "." stack = true \/ Py.contains "." range = true ->
  get_fonts fonts_dict read identifier version stack range
  = Return (empty_response 404).
Proof.
  intros Hdot. unfold get_fonts.
  destruct (fonts_dict !! (identifier, version)); [|reflexivity].
  destruct Hdot as [-> | ->]; [reflexivity|].
  now rewrite orb_true_r.
Qed.

End FontClaims.

(** C5, at a stack of two fonts that both exist: the handler answers with
    the glyphs of [A] followed by those of [B], not with those of the first
    name alone; and a second name that is missing turns the answer into a
    404.  Line 189 splits the stack at [.], which the guard above it has
    excluded, so the whole stack is still there when line 194 splits it at
    the commas. *)
Theorem C5_later_fonts_change_the_response :
  get_fonts demo_fonts_dict demo_read "fonts-gl" "2.0" "A" "0-255"
  = Return {| status := 200; response := Some (Bytes [x01]);
              headers := [("content-encoding", "gzip")];
              content_type := None |} /\
  get_fonts demo_fonts_dict demo_read "fonts-gl" "2.0" "A,B" "0-255"
  = Return {| status := 200; response := Some (Bytes [x01; x02]);
              headers := [("content-encoding", "gzip")];
              content_type := None |} /\
  get_fonts demo_fonts_dict demo_read "fonts-gl" "2.0" "A,C" "0-255"
  = Return (empty_response 404).
Proof. repeat split; vm_compute; reflexivity. Qed.

(** ** The claims at concrete requests *)

Lemma C1_witness :
  let result := get_tile demo_mbtiles_dict demo_remote "counties" "1" 3 2 2 in
  match Py.dict_get demo_mbtile "URL" with
  | None => result = ([], Return (empty_response 404))
  | Some mbtiles_url =>
      let query := {| url := mbtiles_url; statement := sql;
                      params := (Z.of_N 3, Z.of_N 2,
                                 2 ^ Z.of_N 3 - 1 - Z.of_N 2) |} in
      let outcome := demo_remote query in
      fst result = [query] /\
      String.words (statement query)
      = ["SELECT"; "tile_data"; "FROM"; "tiles"; "WHERE"; "zoom_level=?";
         "AND"; "tile_column=?"; "AND"; "tile_row=?"; "LIMIT"; "1"] /\
      (forall rs r data,
         rows outcome = rs ++ [r] -> column0 r = Some data ->
         failure outcome = None ->
         snd result = Return (tile_response data)) /\
      (forall rs r,
         rows outcome = rs ++ [r] -> column0 r = None ->
         failure outcome = None ->
         snd result = Return (empty_response 404)) /\
      (rows outcome = [] -> failure outcome = None ->
       snd result = Return (empty_response 404))
  end.
Proof.
  apply (C1_tile_read_and_response demo_mbtiles_dict demo_remote
           "counties" "1" 3 2 2 demo_mbtile).
  reflexivity.
Defined.

Lemma C2_witness :
  get_styles demo_mbtiles_dict demo_styles_dict demo_fonts_dict
    demo_json_loads demo_json_dumps
    {| args := [("tiles", "counties"); ("fonts", "fonts-gl@2.0")];
       url_root := "http://localhost:8080/" |}
    "positron-gl-style" "1.8" "style.json"
  = Return (empty_response 400).
Proof.
  apply (proj2 (C2_first_failure_wins demo_mbtiles_dict demo_styles_dict
                  demo_fonts_dict demo_json_loads demo_json_dumps
                  {| args := [("tiles", "counties"); ("fonts", "fonts-gl@2.0")];
                     url_root := "http://localhost:8080/" |}
                  "positron-gl-style" "1.8" "style.json")).
  - reflexivity.
  - reflexivity.
Defined.

Lemma C3_witness :
  snd (get_tile demo_mbtiles_dict demo_failing_remote "counties" "1" 3 2 2)
  = Raise (RemoteError "connection reset") /\
  500 <= served_status None
           (snd (get_tile demo_mbtiles_dict demo_failing_remote
                   "counties" "1" 3 2 2))
      <= 599.
Proof.
  refine (proj1 (C3_remote_failure_propagates demo_mbtiles_dict
                   demo_failing_remote None "counties" "1" 3 2 2)
            demo_mbtile _ _ _ _ _ _ _); reflexivity.
Defined.

Lemma C4_witness :
  exists nested,
    nested_structured_dict normalise_environment
      [("1__X", "2"); ("0__X", "1"); ("-1", "0")] = Some nested /\
    (all_keys_are_ints nested = true ->
     exists items,
       Permutation items nested /\ StronglySorted int_key_le items /\
       normalise_environment [("1__X", "2"); ("0__X", "1"); ("-1", "0")]
       = Some (VList (map snd items))) /\
    (all_keys_are_ints nested = false ->
     normalise_environment [("1__X", "2"); ("0__X", "1"); ("-1", "0")]
     = Some (VDict nested)).
Proof.
  apply (C4_emit_list_or_dict [("1__X", "2"); ("0__X", "1"); ("-1", "0")]).
Defined.

Lemma C7_witness :
  get_fonts demo_fonts_dict demo_read "fonts-gl" "2.0" "A" "../0-255"
  = Return (empty_response 404).
Proof.
  apply (C7_dot_is_not_found demo_fonts_dict demo_read
           "fonts-gl" "2.0" "A" "../0-255").
  right. reflexivity.
Defined.

Lemma C9_witness :
  exists style_bytes tiles fonts d sources d' sources',
    demo_styles_dict !! ("positron-gl-style", "1.8", "style.json")
    = Some style_bytes /\
    Py.dict_get (args demo_request) "tiles" = Some tiles /\
    Py.dict_get (args demo_request) "fonts" = Some fonts /\
    demo_json_loads style_bytes = Return (JObj d) /\
    Some (Text "{}") = Some (Text (demo_json_dumps (JObj d'))) /\
    Py.dict_get d "sources" = Some (JObj sources) /\
    Py.dict_get d' "sources" = Some (JObj sources') /\
    Py.dict_get sources' "openmaptiles"
    = Some (openmaptiles_source demo_request tiles) /\
    (forall k, k <> "openmaptiles" ->
       Py.dict_get sources' k = Py.dict_get sources k) /\
    Py.dict_get d' "glyphs" = Some (glyphs_url demo_request fonts) /\
    (forall k, k <> "sources" -> k <> "glyphs" ->
       Py.dict_get d' k = Py.dict_get d k).
Proof.
  apply (C9_style_document_frame demo_mbtiles_dict demo_styles_dict
           demo_fonts_dict demo_json_loads demo_json_dumps demo_request
           "positron-gl-style" "1.8" "style.json"
           {| status := 200; response := Some (Text "{}"); headers := [];
              content_type := Some "application/json" |}).
  - reflexivity.
  - reflexivity.
Defined.

(** ** Further facts about the Python primitives *)

Lemma append_assoc (a b c : string) : (a +:+ b) +:+ c = a +:+ b +:+ c.
Proof.
  induction a as [|x a IH]; [reflexivity|].
  change (String x a +:+ b) with (String x (a +:+ b)).
  change (String x (a +:+ b) +:+ c) with (String x ((a +:+ b) +:+ c)).
  change (String x a +:+ b +:+ c) with (String x (a +:+ b +:+ c)).
  now rewrite IH.
Qed.

Lemma append_empty_r (a : string) : a +:+ "" = a.
Proof.
  induction a as [|x a IH]; [reflexivity|].
  change (String x a +:+ "") with (String x (a +:+ "")). now rewrite IH.
Qed.

Lemma startswith_append (p r : string) : Py.startswith p (p +:+ r) = true.
Proof.
  induction p as [|a p IH]; [reflexivity|].
  change (String a p +:+ r) with (String a (p +:+ r)). cbn.
  now rewrite Ascii.eqb_refl, IH.
Qed.

Lemma startswith_append_more (p s r : string) :
  Py.startswith p s = true -> Py.startswith p (s +:+ r) = true.
Proof.
  revert s. induction p as [|a p IH]; intros s H; [reflexivity|].
  destruct s as [|b s]; [discriminate|].
  change (String b s +:+ r) with (String b (s +:+ r)). cbn in H |- *.
  apply andb_true_iff in H as [-> H]. now rewrite (IH _ H).
Qed.

(** A prefix that has the length of the first part is the first part. *)
Lemma startswith_exact (p q r : string) :
  Py.startswith p (q +:+ r) = true -> String.length p = String.length q ->
  p = q.
Proof.
  revert q. induction p as [|a p IH]; intros q H Hlen.
  - destruct q; [reflexivity | discriminate].
  - destruct q as [|b q]; [discriminate|].
    change (String b q +:+ r) with (String b (q +:+ r)) in H. cbn in H.
    apply andb_true_iff in H as [Hab H].
    apply Ascii.eqb_eq in Hab as ->. f_equal. apply IH; [exact H|].
    cbn in Hlen. lia.
Qed.

Lemma contains_append (sub a b : string) :
  Py.contains sub (a +:+ sub +:+ b) = true.
Proof.
  induction a as [|x a IH].
  - change ("" +:+ sub +:+ b) with (sub +:+ b).
    destruct sub as [|c sub]; [destruct b; reflexivity|].
    change (String c sub +:+ b) with (String c (sub +:+ b)).
    cbn [Py.contains].
    change (String c (sub +:+ b)) with (String c sub +:+ b).
    now rewrite startswith_append.
  - change (String x a +:+ sub +:+ b) with (String x (a +:+ sub +:+ b)).
    cbn [Py.contains]. rewrite IH. apply orb_true_r.
Qed.

(** [split] undone by [join]. *)
Lemma join_split_from (sep : string) (skip : nat) (s : string) :
  sep <> "" -> (skip <= String.length s)%nat ->
  exists pre,
    String.length pre = skip /\
    s = pre +:+ Py.join sep (Py.split_from sep skip s).
Proof.
  intros Hsep. revert skip.
  induction s as [|c s IH]; intros skip Hskip; cbn [Py.split_from].
  - exists "". cbn in *. split; [lia | reflexivity].
  - destruct skip as [|k].
    + exists "". split; [reflexivity|].
      change ("" +:+ ?x) with x.
      destruct (Py.startswith sep (String c s)) eqn:Hpre.
      * pose proof (startswith_length _ _ Hpre) as Hlen.
        destruct sep as [|a sep]; [congruence|].
        cbn [String.length] in Hlen |- *.
        replace (S (String.length sep) - 1)%nat with (String.length sep)
          by lia.
        destruct (IH (String.length sep) ltac:(lia)) as (pre & Hpl & Hs).
        destruct (split_from_cons (String a sep) (String.length sep) s)
          as (h & t & E). rewrite E in Hs |- *.
        change (Py.join (String a sep) ("" :: h :: t))
          with ("" +:+ String a sep +:+ Py.join (String a sep) (h :: t)).
        change ("" +:+ ?x) with x.
        cbn in Hpre. apply andb_true_iff in Hpre as [Hac Hpre].
        apply Ascii.eqb_eq in Hac as ->.
        rewrite Hs in Hpre.
        apply startswith_exact in Hpre; [|congruence]. subst pre.
        change (String c sep +:+ ?x) with (String c (sep +:+ x)).
        now rewrite <- Hs.
      * destruct (IH 0%nat ltac:(lia)) as (pre & Hpl & Hs).
        destruct pre; [|discriminate]. change ("" +:+ ?x) with x in Hs.
        destruct (split_from_cons sep 0 s) as (h & t & E).
        rewrite E in Hs |- *. rewrite join_cons_char. now rewrite <- Hs.
    + destruct (IH k ltac:(cbn in Hskip; lia)) as (pre & Hpl & Hs).
      exists (String c pre). split; [cbn; lia|].
      change (String c pre +:+ ?x) with (String c (pre +:+ x)).
      now rewrite <- Hs.
Qed.

Lemma join_split (sep s : string) :
  sep <> "" -> Py.join sep (Py.split sep s) = s.
Proof.
  intros Hsep.
  destruct (join_split_from sep 0 s Hsep ltac:(lia)) as (pre & Hpl & Hs).
  destruct pre; [|discriminate]. symmetry. exact Hs.
Qed.

(** A text without the separator is its own single component. *)
Lemma split_without_separator (sep s : string) :
  Py.contains sep s = false -> Py.split sep s = [s].
Proof.
  unfold Py.split. induction s as [|c s IH]; intros H; [reflexivity|].
  cbn [Py.contains] in H. apply orb_false_iff in H as [Hpre H].
  cbn [Py.split_from]. rewrite Hpre, (IH H). reflexivity.
Qed.

(** The first component of a split holds no separator. *)
Lemma split_head_without_separator (sep s h : string) (t : list string) :
  sep <> "" -> Py.split sep s = h :: t -> Py.contains sep h = false.
Proof.
  intros Hsep. unfold Py.split. revert h t.
  induction s as [|c s IH]; intros h t E; cbn [Py.split_from] in E.
  - injection E as <- <-. destruct sep; [congruence | reflexivity].
  - destruct (Py.startswith sep (String c s)) eqn:Hpre.
    + injection E as <- <-. destruct sep; [congruence | reflexivity].
    + destruct (split_from_cons sep 0 s) as (h' & t' & E').
      rewrite E' in E. injection E as <- <-.
      cbn [Py.contains]. rewrite (IH _ _ E'), orb_false_r.
      destruct (Py.startswith sep (String c h')) eqn:Hh; [|reflexivity].
      pose proof (join_split sep s Hsep) as Hs. unfold Py.split in Hs.
      rewrite E' in Hs.
      assert (exists r, s = h' +:+ r) as [r ->].
      { destruct t' as [|h2 t'].
        - exists "". cbn in Hs. now rewrite append_empty_r.
        - eexists. symmetry. exact Hs. }
      change (String c (h' +:+ r)) with (String c h' +:+ r) in Hpre.
      rewrite (startswith_append_more _ _ r Hh) in Hpre. discriminate.
Qed.

(** ** Further facts about the decoder *)

Lemma key_components (key : string) :
  exists t, Py.split separator key = get_first_component key :: t /\
            get_later_components key = Py.join separator t.
Proof.
  unfold get_first_component, get_later_components, Py.split.
  destruct (split_from_cons separator 0 key) as (h & t & ->).
  exists t. split; reflexivity.
Qed.

Lemma key_of_components (key : string) :
  Py.truthy (get_later_components key) = true ->
  key = get_first_component key +:+ separator +:+ get_later_components key.
Proof.
  intros Ht. destruct (key_components key) as (t & Hs & Hl).
  pose proof (join_split separator key separator_nonempty) as Hj.
  rewrite Hs in Hj. rewrite Hl in Ht |- *.
  destruct t as [|h t]; [discriminate|]. symmetry. exact Hj.
Qed.

Lemma later_of_plain_key (key : string) :
  Py.contains separator key = false ->
  get_first_component key = key /\ get_later_components key = "".
Proof.
  intros H. unfold get_first_component, get_later_components.
  now rewrite (split_without_separator _ _ H).
Qed.

Lemma dict_set_fresh {V : Type} (d : Py.dict V) (k : string) (v : V) :
  k ∉ map fst d -> Py.dict_set d k v = d ++ [(k, v)].
Proof.
  induction d as [|[k1 v1] d IH]; intros Hk; [reflexivity|].
  cbn in Hk. apply not_elem_of_cons in Hk as [Hne Hk]. cbn.
  destruct (String.eqb_spec k1 k); [congruence|]. now rewrite IH.
Qed.

Lemma dict_update_fresh {V : Type} (items d : Py.dict V) :
  NoDup (map fst (d ++ items)) -> Py.dict_update d items = d ++ items.
Proof.
  unfold Py.dict_update. revert d.
  induction items as [|[k v] items IH]; intros d Hnd; cbn.
  - now rewrite app_nil_r.
  - assert (d ++ (k, v) :: items = (d ++ [(k, v)]) ++ items) as E
      by now rewrite <- app_assoc.
    rewrite E in Hnd |- *.
    rewrite dict_set_fresh; [now apply IH|].
    rewrite !map_app in Hnd. apply NoDup_app in Hnd as [Hnd _].
    apply NoDup_app in Hnd as (_ & Hd & _).
    intros Hin. apply (Hd k Hin). cbn. apply elem_of_cons. now left.
Qed.

(** A list of items with distinct keys is a dict as it stands. *)
Lemma dict_of_distinct {V : Type} (items : list (string * V)) :
  NoDup (map fst items) -> Py.dict_of items = items.
Proof. intros H. unfold Py.dict_of. now rewrite dict_update_fresh. Qed.

Lemma NoDup_keys_filter {V : Type} (f : string * V -> bool)
    (items : list (string * V)) :
  NoDup (map fst items) -> NoDup (map fst (List.filter f items)).
Proof.
  induction items as [|[k v] items IH]; intros Hnd; [exact Hnd|].
  cbn in Hnd. apply NoDup_cons in Hnd as [Hk Hnd]. cbn.
  destruct (f (k, v)); [|auto]. cbn. apply NoDup_cons. split; [|auto].
  intros Hin. apply Hk. apply elem_of_keys in Hin as (v' & Hin).
  apply elem_of_keys. exists v'.
  apply list_elem_of_In, filter_In in Hin as [Hin _].
  now apply list_elem_of_In.
Qed.

Lemma with_more_components_distinct (key_values : Py.dict string) :
  NoDup (map fst key_values) ->
  with_more_components key_values
  = List.filter (fun kv => Py.truthy (get_later_components (fst kv)))
      key_values.
Proof.
  intros H. unfold with_more_components.
  now rewrite dict_of_distinct by now apply NoDup_keys_filter.
Qed.

Lemma without_more_components_distinct (key_values : Py.dict string) :
  NoDup (map fst key_values) ->
  without_more_components key_values
  = List.filter
      (fun kv => negb (Py.truthy (get_later_components (fst kv))))
      key_values.
Proof.
  intros H. unfold without_more_components.
  now rewrite dict_of_distinct by now apply NoDup_keys_filter.
Qed.

Lemma grouped_by_first_component_keys (items : list (string * string))
    (fc : string) :
  fc ∈ map fst (grouped_by_first_component items)
  <-> exists item, item ∈ items /\ by_first_component item = fc.
Proof.
  split.
  - intros H. apply elem_of_keys in H as (g & Hg).
    destruct (grouped_by_first_component_spec items) as [_ Hspec].
    destruct (Hspec _ _ Hg) as [-> Hne].
    destruct (List.filter (has_key by_first_component fc) items)
      as [|item rest] eqn:E; [congruence|].
    assert (In item (List.filter (has_key by_first_component fc) items))
      as Hin by (rewrite E; now left).
    apply filter_In in Hin as [Hin Hk]. exists item.
    split; [now apply list_elem_of_In | now apply String.eqb_eq].
  - intros (item & Hin & <-).
    destruct (grouped_by_first_component_covers _ _ Hin) as (g & Hg).
    apply elem_of_keys. eauto.
Qed.

(** The dict of one level, taken apart. *)
Lemma nested_structured_dict_parts
    (rec : Py.dict string -> option value) (key_values : Py.dict string)
    (nested : Py.dict value) :
  nested_structured_dict rec key_values = Some nested ->
  exists decoded,
    nested
    = Py.dict_update
        (map (fun kv => (fst kv, VStr (snd kv)))
           (without_more_components key_values))
        (Py.dict_of decoded) /\
    NoDup (map fst decoded) /\
    map fst decoded
    = map fst (grouped_by_first_component (with_more_components key_values)) /\
    forall fc g,
      (fc, g) ∈ grouped_by_first_component (with_more_components key_values) ->
      exists v, rec (items_with_first_component
                       (with_more_components key_values) fc) = Some v
                /\ (fc, v) ∈ decoded.
Proof.
  unfold nested_structured_dict.
  destruct (mapM _ _) as [decoded|] eqn:Hm; [|discriminate].
  cbn. intros [= <-]. destruct (mapM_groups _ _ _ Hm) as [Hkeys Hvals].
  exists decoded. split; [reflexivity|]. split; [|split; [exact Hkeys|]].
  - rewrite Hkeys. apply grouped_by_first_component_spec.
  - intros fc g Hg. destruct (Hvals fc g Hg) as (v & Hv & Hin).
    rewrite (items_with_first_component_group _ _ _ Hg) in Hv. eauto.
Qed.

Lemma leaf_keys (items : Py.dict string) :
  map fst (map (fun kv : string * string => (fst kv, VStr (snd kv))) items)
  = map fst items.
Proof. rewrite map_map. reflexivity. Qed.

Lemma nested_structured_dict_keys
    (rec : Py.dict string -> option value) (key_values : Py.dict string)
    (nested : Py.dict value) :
  nested_structured_dict rec key_values = Some nested ->
  NoDup (map fst nested) /\
  forall k,
    k ∈ map fst nested <->
    (k ∈ map fst key_values /\ Py.truthy (get_later_components k) = false) \/
    (exists k', k' ∈ map fst key_values /\
                Py.truthy (get_later_components k') = true /\
                get_first_component k' = k).
Proof.
  intros H.
  destruct (nested_structured_dict_parts _ _ _ H)
    as (decoded & -> & Hnd & Hkeys & _).
  split.
  - apply dict_update_NoDup. rewrite leaf_keys.
    unfold without_more_components. apply dict_of_NoDup.
  - intros k. rewrite dict_update_keys, leaf_keys, dict_of_keys, Hkeys.
    rewrite without_more_components_keys, grouped_by_first_component_keys.
    split; (intros [Hl|Hr]; [now left | right]).
    + destruct Hr as ([k' v'] & Hin & Hfc).
      exists k'. unfold by_first_component in Hfc. cbn in Hfc.
      assert (k' ∈ map fst (with_more_components key_values)) as Hk'
        by (apply elem_of_keys; eauto).
      apply with_more_components_keys in Hk' as [Hk' Ht]. auto.
    + destruct Hr as (k' & Hk' & Ht & Hfc).
      assert (k' ∈ map fst (with_more_components key_values)) as Hin
        by (apply with_more_components_keys; auto).
      apply elem_of_keys in Hin as (v' & Hin). exists (k', v'). auto.
Qed.



(** ** The decoder: further properties *)

(** X1: on every flat input the decoder ends with a value, and that value
    is a list or a dict, never a bare string. *)
Theorem X1_decoder_returns_list_or_dict (key_values : Py.dict string) :
  (exists l, normalise_environment key_values = Some (VList l)) \/
  (exists d, normalise_environment key_values = Some (VDict d)).
Proof.
  destruct (normalise_environment_total key_values) as [[s|l|d] H].
  - now apply normalise_environment_not_str in H.
  - left. eauto.
  - right. eauto.
Qed.

(** X2: a key is put back together from its components: the first
    component holds no separator, a key with later components is the first
    component, the separator and the later components, and a key without
    is its first component, possibly followed by one closing separator. *)
Theorem X2_key_from_components (key : string) :
  Py.contains separator (get_first_component key) = false /\
  if Py.truthy (get_later_components key)
  then key = get_first_component key +:+ separator
             +:+ get_later_components key
  else key = get_first_component key \/
       key = get_first_component key +:+ separator.
Proof.
  destruct (key_components key) as (t & Hs & Hl). split.
  - exact (split_head_without_separator _ _ _ _ separator_nonempty Hs).
  - destruct (Py.truthy (get_later_components key)) eqn:Ht.
    + now apply key_of_components.
    + pose proof (join_split separator key separator_nonempty) as Hj.
      rewrite Hs in Hj. destruct t as [|h t].
      * left. symmetry. exact Hj.
      * right. rewrite Hl in Ht.
        apply negb_false_iff, String.eqb_eq in Ht.
        change (Py.join separator (get_first_component key :: h :: t))
          with (get_first_component key +:+ separator
                +:+ Py.join separator (h :: t)) in Hj.
        rewrite Ht, append_empty_r in Hj. symmetry. exact Hj.
Qed.

(** X3: the keys of one decoded level are distinct, and they are the input
    keys without later components together with the first components of
    the keys that have some. *)
Theorem X3_level_keys (key_values : Py.dict string) :
  exists nested,
    nested_structured_dict normalise_environment key_values = Some nested /\
    NoDup (map fst nested) /\
    forall k,
      k ∈ map fst nested <->
      (k ∈ map fst key_values /\
       Py.truthy (get_later_components k) = false) \/
      (exists k', k' ∈ map fst key_values /\
                  Py.truthy (get_later_components k') = true /\
                  get_first_component k' = k).
Proof.
  destruct (normalise_environment_level key_values) as (nested & _ & Hn & _).
  exists nested. split; [exact Hn|].
  exact (nested_structured_dict_keys _ _ _ Hn).
Qed.

(** X4: in an input with distinct keys, a key without later components
    that is the first component of no deeper key keeps its string at its
    level. *)
Theorem X4_leaf_is_kept (key_values : Py.dict string) (k v : string) :
  NoDup (map fst key_values) ->
  (k, v) ∈ key_values ->
  Py.truthy (get_later_components k) = false ->
  (forall k', k' ∈ map fst key_values ->
     Py.truthy (get_later_components k') = true ->
     get_first_component k' <> k) ->
  exists nested,
    nested_structured_dict normalise_environment key_values = Some nested /\
    Py.dict_get nested k = Some (VStr v).
Proof.
  intros Hnd Hk Hleaf Hfree.
  destruct (normalise_environment_level key_values) as (nested & _ & Hn & _).
  exists nested. split; [exact Hn|].
  destruct (nested_structured_dict_parts _ _ _ Hn)
    as (decoded & -> & _ & Hkeys & _).
  rewrite dict_get_update_other.
  - apply dict_get_unique.
    + rewrite leaf_keys. apply dict_of_NoDup.
    + rewrite (without_more_components_distinct _ Hnd).
      apply list_elem_of_In, in_map_iff. exists (k, v).
      split; [reflexivity|]. apply filter_In.
      split; [now apply list_elem_of_In | cbn; now rewrite Hleaf].
  - rewrite dict_of_keys, Hkeys, grouped_by_first_component_keys.
    intros ([k' v'] & Hin & Hfc). unfold by_first_component in Hfc.
    cbn in Hfc.
    assert (k' ∈ map fst (with_more_components key_values)) as Hk'
      by (apply elem_of_keys; eauto).
    apply with_more_components_keys in Hk' as [Hk' Ht].
    exact (Hfree k' Hk' Ht Hfc).
Qed.

Lemma X4_witness :
  exists nested,
    nested_structured_dict normalise_environment
      [("PORT", "8080"); ("MBTILES__0__URL", "u")] = Some nested /\
    Py.dict_get nested "PORT" = Some (VStr "8080").
Proof.
  apply (X4_leaf_is_kept [("PORT", "8080"); ("MBTILES__0__URL", "u")]
           "PORT" "8080").
  - cbn. apply NoDup_cons. split.
    + intros H. apply list_elem_of_singleton in H. discriminate.
    + apply NoDup_singleton.
  - apply elem_of_cons. now left.
  - reflexivity.
  - intros k' Hk' Ht. cbn in Hk'.
    apply elem_of_cons in Hk' as [->|Hk']; [discriminate|].
    apply list_elem_of_singleton in Hk' as ->. discriminate.
Defined.

Lemma filter_all {A : Type} (f : A -> bool) (l : list A) :
  (forall x, x ∈ l -> f x = true) -> List.filter f l = l.
Proof.
  induction l as [|x l IH]; intros H; [reflexivity|]. cbn.
  rewrite (H x) by (apply elem_of_cons; now left). f_equal.
  apply IH. intros y Hy. apply H, elem_of_cons. now right.
Qed.

(** X5: an input with distinct keys, none holding the separator and one of
    them no integer, decodes to itself: the dict of the same keys in the
    same order, each with its string. *)
Theorem X5_flat_input_decodes_to_itself (key_values : Py.dict string) :
  NoDup (map fst key_values) ->
  (forall k, k ∈ map fst key_values -> Py.contains separator k = false) ->
  (exists k, k ∈ map fst key_values /\ Py.int k = None) ->
  normalise_environment key_values
  = Some (VDict (map (fun kv => (fst kv, VStr (snd kv))) key_values)).
Proof.
  intros Hnd Hplain (k0 & Hk0 & Hint).
  assert (Hlater : forall item : string * string, item ∈ key_values ->
            Py.truthy (get_later_components (fst item)) = false).
  { intros [k v] Hin. cbn.
    destruct (later_of_plain_key k) as [_ ->]; [|reflexivity].
    apply Hplain, elem_of_keys. eauto. }
  assert (with_more_components key_values = []) as Hwith.
  { rewrite (with_more_components_distinct _ Hnd).
    apply filter_none. exact Hlater. }
  assert (without_more_components key_values = key_values) as Hwithout.
  { rewrite (without_more_components_distinct _ Hnd).
    apply filter_all. intros item Hin. now rewrite (Hlater item Hin). }
  rewrite normalise_environment_eq. unfold nested_structured_dict.
  rewrite Hwith, Hwithout. cbn. unfold emit.
  assert (all_keys_are_ints
            (map (fun kv : string * string => (fst kv, VStr (snd kv)))
               key_values) = false) as ->; [|reflexivity].
  apply not_true_is_false. intros Hall.
  unfold all_keys_are_ints in Hall. rewrite forallb_forall in Hall.
  apply elem_of_keys in Hk0 as (v0 & Hin).
  specialize (Hall (k0, VStr v0)). unfold is_int in Hall. cbn in Hall.
  rewrite Hint in Hall. enough (false = true) by discriminate.
  apply Hall, in_map_iff. exists (k0, v0).
  split; [reflexivity | now apply list_elem_of_In].
Qed.

Lemma X5_witness :
  normalise_environment [("PORT", "8080"); ("HOME", "/root")]
  = Some (VDict (map (fun kv => (fst kv, VStr (snd kv)))
                   [("PORT", "8080"); ("HOME", "/root")])).
Proof.
  apply (X5_flat_input_decodes_to_itself [("PORT", "8080"); ("HOME", "/root")]).
  - cbn. apply NoDup_cons. split.
    + intros H. apply list_elem_of_singleton in H. discriminate.
    + apply NoDup_singleton.
  - intros k Hk. cbn in Hk.
    apply elem_of_cons in Hk as [->|Hk]; [reflexivity|].
    apply list_elem_of_singleton in Hk as ->. reflexivity.
  - exists "PORT". split; [apply elem_of_cons; now left | reflexivity].
Defined.







(** ** The start-up: properties *)

Lemma dict_get_key {V : Type} (d : Py.dict V) (k : string) (v : V) :
  Py.dict_get d k = Some v -> k ∈ map fst d.
Proof. intros H. apply elem_of_keys. exists v. now apply dict_get_elem. Qed.

Lemma dict_get_None {V : Type} (d : Py.dict V) (k : string) :
  Py.dict_get d k = None <-> k ∉ map fst d.
Proof.
  induction d as [|[k1 v1] d IH]; cbn.
  - split; [intros _ H; now apply elem_of_nil in H | reflexivity].
  - rewrite not_elem_of_cons.
    destruct (String.eqb_spec k1 k) as [->|Hne].
    + split; [discriminate | intros [H _]; congruence].
    + rewrite IH. split; [intros H; split; congruence | tauto].
Qed.

(** With [PORT] among the variables the decoded environment is a dict. *)
Lemma environment_with_port (environ : Py.dict string) (port : string) :
  Py.dict_get environ "PORT" = Some port ->
  exists d,
    nested_structured_dict normalise_environment environ = Some d /\
    normalise_environment environ = Some (VDict d).
Proof.
  intros Hport.
  destruct (normalise_environment_level environ)
    as (nested & out & Hn & Hemit & Hout).
  exists nested. split; [exact Hn|]. rewrite Hout. f_equal.
  unfold emit in Hemit.
  assert (all_keys_are_ints nested = false) as Hall.
  { apply not_true_is_false. intros Hall.
    unfold all_keys_are_ints in Hall. rewrite forallb_forall in Hall.
    assert ("PORT" ∈ map fst nested) as Hk.
    { apply (nested_structured_dict_keys _ _ _ Hn). left.
      split; [now apply dict_get_key in Hport | reflexivity]. }
    apply elem_of_keys in Hk as (v & Hk).
    apply list_elem_of_In, Hall in Hk. discriminate. }
  rewrite Hall in Hemit. congruence.
Qed.

(** X7: the start-up reads [PORT] from the flat environment and the
    archives from the decoded one.  Without [PORT] it ends in [KeyError],
    with a [PORT] that is no integer in [ValueError]; otherwise the decoded
    environment is a dict, and the start-up ends in [KeyError] exactly when
    no variable is named [MBTILES] or is [MBTILES__] followed by further
    text, else it hands on the port, the value decoded under [MBTILES] and
    the one under [HTTP_ACCESS_CONTROL_ALLOW_ORIGIN], if any. *)
Theorem X7_main_arguments (environ : Py.dict string) :
  (Py.dict_get environ "PORT" = None ->
   main_arguments environ = Some (Raise KeyError)) /\
  (forall port, Py.dict_get environ "PORT" = Some port ->
     Py.int port = None ->
     main_arguments environ = Some (Raise ValueError)) /\
  (forall port n, Py.dict_get environ "PORT" = Some port ->
     Py.int port = Some n ->
     exists d,
       normalise_environment environ = Some (VDict d) /\
       main_arguments environ
       = Some match Py.dict_get d "MBTILES" with
              | None => Raise KeyError
              | Some mbtiles =>
                  Return (n, mbtiles,
                          Py.dict_get d "HTTP_ACCESS_CONTROL_ALLOW_ORIGIN")
              end /\
       (Py.dict_get d "MBTILES" = None <->
        forall k, k ∈ map fst environ ->
          k <> "MBTILES" /\
          (Py.truthy (get_later_components k) = true ->
           get_first_component k <> "MBTILES"))).
Proof.
  unfold main_arguments.
  destruct (normalise_environment_total environ) as [env Henv].
  rewrite Henv. cbn. split; [|split].
  - now intros ->.
  - intros port -> ->. reflexivity.
  - intros port n Hport Hint.
    destruct (environment_with_port _ _ Hport) as (d & Hn & Hd).
    rewrite Hd in Henv. injection Henv as <-.
    exists d. split; [reflexivity|]. rewrite Hport, Hint. cbn.
    split; [now destruct (Py.dict_get d "MBTILES")|].
    rewrite dict_get_None.
    destruct (nested_structured_dict_keys _ _ _ Hn) as [_ Hkeys].
    rewrite Hkeys. split.
    + intros Hno k Hk. split.
      * intros ->. apply Hno. left. now split.
      * intros Ht Hfc. apply Hno. right. eauto.
    + intros Hno [[Hk _]|(k' & Hk' & Ht & Hfc)].
      * now destruct (Hno _ Hk).
      * destruct (Hno _ Hk') as [_ H]. now apply H.
Qed.

Lemma X7_witness :
  exists d,
    normalise_environment
      [("PORT", "8080"); ("MBTILES__0__URL", "u")] = Some (VDict d) /\
    main_arguments [("PORT", "8080"); ("MBTILES__0__URL", "u")]
    = Some match Py.dict_get d "MBTILES" with
           | None => Raise KeyError
           | Some mbtiles =>
               Return (8080, mbtiles,
                       Py.dict_get d "HTTP_ACCESS_CONTROL_ALLOW_ORIGIN")
           end /\
    (Py.dict_get d "MBTILES" = None <->
     forall k, k ∈ map fst [("PORT", "8080"); ("MBTILES__0__URL", "u")] ->
       k <> "MBTILES" /\
       (Py.truthy (get_later_components k) = true ->
        get_first_component k <> "MBTILES")).
Proof.
  apply (proj2 (proj2 (X7_main_arguments
                         [("PORT", "8080"); ("MBTILES__0__URL", "u")]))
           "8080" 8080); reflexivity.
Defined.

(** ** The server: further properties *)

Section ServerProperties.
Variable mbtiles_dict : gmap (string * string) (Py.dict value).
Variable styles_dict : gmap (string * string * string) bytes.
Variable statics_dict : gmap (string * string * string) static_file.
Variable fonts_dict : gmap (string * string) string.
Variable sqlite_s3_query : read_request -> query_outcome.
Variable read : string -> result bytes.
Variable json_loads : bytes -> result json.
Variable json_dumps : json -> string.

(** X8: a key that a catalog does not have is answered 404 by each of the
    four views, and by the tile view without any read of the remote. *)
Theorem X8_unknown_key_is_not_found
    (request : Request) (identifier version file stack range : string)
    (z x y : N) :
  (mbtiles_dict !! (identifier, version) = None ->
   get_tile mbtiles_dict sqlite_s3_query identifier version z x y
   = ([], Return (empty_response 404))) /\
  (styles_dict !! (identifier, version, file) = None ->
   get_styles mbtiles_dict styles_dict fonts_dict json_loads json_dumps
     request identifier version file
   = Return (empty_response 404)) /\
  (fonts_dict !! (identifier, version) = None ->
   get_fonts fonts_dict read identifier version stack range
   = Return (empty_response 404)) /\
  (statics_dict !! (identifier, version, file) = None ->
   get_static statics_dict identifier version file
   = Return (empty_response 404)).
Proof.
  unfold get_tile, get_styles, get_fonts, get_static.
  repeat split; intros ->; reflexivity.
Qed.

(** X9: the tile view does not bound the row.  For a key of the catalog
    with a locator, requests that differ in [y] issue different reads, and
    a [y] at or beyond [2^z] still issues its read, for a negative row. *)
Theorem X9_row_is_not_bounded
    (identifier version : string) (mbtiles_url : value) (z x y : N)
    (mbtile : Py.dict value) :
  mbtiles_dict !! (identifier, version) = Some mbtile ->
  Py.dict_get mbtile "URL" = Some mbtiles_url ->
  (forall y',
     fst (get_tile mbtiles_dict sqlite_s3_query identifier version z x y)
     = fst (get_tile mbtiles_dict sqlite_s3_query identifier version z x y')
     -> y = y') /\
  ((2 ^ z <= y)%N ->
   exists query,
     fst (get_tile mbtiles_dict sqlite_s3_query identifier version z x y)
     = [query] /\
     snd (params query) < 0).
Proof.
  intros Hm Hurl. split.
  - intros y'.
    rewrite (get_tile_resolved _ _ _ _ _ z x y _ Hm Hurl).
    rewrite (get_tile_resolved _ _ _ _ _ z x y' _ Hm Hurl).
    cbn [fst]. intros [= H]. lia.
  - intros Hy. rewrite (get_tile_resolved _ _ _ _ _ z x y _ Hm Hurl).
    eexists. split; [reflexivity|]. cbn [params snd].
    apply N2Z.inj_le in Hy. rewrite N2Z.inj_pow in Hy.
    change (Z.of_N 2) with 2 in Hy. lia.
Qed.

(** A style request that passes every check is answered from the
    template alone. *)
Lemma get_styles_checked
    (request : Request) (identifier version file : string) :
  first_failure
    (style_checks mbtiles_dict styles_dict fonts_dict request
       identifier version file) = None ->
  exists style_bytes tiles fonts,
    styles_dict !! (identifier, version, file) = Some style_bytes /\
    Py.dict_get (args request) "tiles" = Some tiles /\
    Py.dict_get (args request) "fonts" = Some fonts /\
    get_styles mbtiles_dict styles_dict fonts_dict json_loads json_dumps
      request identifier version file
    = match json_loads style_bytes with
      | Raise e => Raise e
      | Return style_dict =>
          match compose_style style_dict
                  (openmaptiles_source request tiles)
                  (glyphs_url request fonts) with
          | Raise e => Raise e
          | Return style_dict' =>
              Return {| status := 200;
                        response := Some (Text (json_dumps style_dict'));
                        headers := [];
                        content_type := Some "application/json" |}
          end
      end.
Proof.
  unfold first_failure, style_checks, get_styles, splits_in_two, refers_into.
  destruct (styles_dict !! (identifier, version, file)) as [style_bytes|];
    [|discriminate].
  destruct (Py.dict_get (args request) "tiles") as [tiles|]; [|discriminate].
  destruct (Py.split "@" tiles) as [|ti [|tv [|c l]]]; try discriminate.
  destruct (mbtiles_dict !! (ti, tv)) as [mbtile|]; [|discriminate].
  destruct (Py.dict_get (args request) "fonts") as [fonts|]; [|discriminate].
  destruct (Py.split "@" fonts) as [|fi [|fv [|c l]]]; try discriminate.
  destruct (fonts_dict !! (fi, fv)) as [font_path|]; [|discriminate].
  intros _. exists style_bytes, tiles, fonts. repeat split.
Qed.

(** X10: a style request that passes every check, on a template that
    deserializes to an object whose [sources] is an object, is answered
    200 as [application/json] with the serialized template in which
    [sources.openmaptiles] and [glyphs] are set from the request. *)
Theorem X10_style_success
    (request : Request) (identifier version file : string)
    (style_bytes : bytes) (tiles fonts : string)
    (d sources : list (string * json)) :
  first_failure
    (style_checks mbtiles_dict styles_dict fonts_dict request
       identifier version file) = None ->
  styles_dict !! (identifier, version, file) = Some style_bytes ->
  Py.dict_get (args request) "tiles" = Some tiles ->
  Py.dict_get (args request) "fonts" = Some fonts ->
  json_loads style_bytes = Return (JObj d) ->
  Py.dict_get d "sources" = Some (JObj sources) ->
  get_styles mbtiles_dict styles_dict fonts_dict json_loads json_dumps
    request identifier version file
  = Return
      {| status := 200;
         response :=
           Some (Text (json_dumps
             (JObj (Py.dict_set
                      (Py.dict_set d "sources"
                         (JObj (Py.dict_set sources "openmaptiles"
                                  (openmaptiles_source request tiles))))
                      "glyphs" (glyphs_url request fonts)))));
         headers := [];
         content_type := Some "application/json" |}.
Proof.
  intros Hvalid Hstyle Htiles Hfonts Hloads Hsources.
  destruct (get_styles_checked _ _ _ _ Hvalid)
    as (style_bytes' & tiles' & fonts' & Hs & Ht & Hf & ->).
  rewrite Hstyle in Hs. rewrite Htiles in Ht. rewrite Hfonts in Hf.
  injection Hs as <-. injection Ht as <-. injection Hf as <-.
  rewrite Hloads. cbn. now rewrite Hsources.
Qed.

(** X12: a style request that passes every check still fails on a bad
    template, and then with an exception, not a 4xx: a failure of
    [json.loads] escapes as it is, a template that is no object or whose
    [sources] is no object gives [TypeError], one without [sources]
    [KeyError]. *)
Theorem X12_style_template_errors
    (request : Request) (identifier version file : string)
    (style_bytes : bytes) :
  first_failure
    (style_checks mbtiles_dict styles_dict fonts_dict request
       identifier version file) = None ->
  styles_dict !! (identifier, version, file) = Some style_bytes ->
  let outcome :=
    get_styles mbtiles_dict styles_dict fonts_dict json_loads json_dumps
      request identifier version file in
  (forall e, json_loads style_bytes = Raise e -> outcome = Raise e) /\
  (forall t, json_loads style_bytes = Return t ->
     (forall d, t <> JObj d) -> outcome = Raise TypeError) /\
  (forall d, json_loads style_bytes = Return (JObj d) ->
     Py.dict_get d "sources" = None -> outcome = Raise KeyError) /\
  (forall d s, json_loads style_bytes = Return (JObj d) ->
     Py.dict_get d "sources" = Some s ->
     (forall sources, s <> JObj sources) -> outcome = Raise TypeError).
Proof.
  intros Hvalid Hstyle. cbn zeta.
  destruct (get_styles_checked _ _ _ _ Hvalid)
    as (style_bytes' & tiles & fonts & Hs & _ & _ & ->).
  rewrite Hstyle in Hs. injection Hs as <-. repeat split.
  - now intros e ->.
  - intros t -> Ht. destruct t; try reflexivity. now destruct (Ht d).
  - intros d -> Hd. cbn. now rewrite Hd.
  - intros d s -> Hd Hs. cbn. rewrite Hd.
    destruct s; try reflexivity. now destruct (Hs d0).
Qed.

(** X13: of the query string the style view reads only the first value of
    [tiles] and of [fonts]: two requests that agree on these and on the
    root of the URL get the same answer. *)
Theorem X13_style_reads_first_values
    (request request' : Request) (identifier version file : string) :
  url_root request = url_root request' ->
  Py.dict_get (args request) "tiles" = Py.dict_get (args request') "tiles" ->
  Py.dict_get (args request) "fonts" = Py.dict_get (args request') "fonts" ->
  get_styles mbtiles_dict styles_dict fonts_dict json_loads json_dumps
    request identifier version file
  = get_styles mbtiles_dict styles_dict fonts_dict json_loads json_dumps
      request' identifier version file.
Proof.
  intros Hroot Htiles Hfonts.
  unfold get_styles, openmaptiles_source, glyphs_url.
  now rewrite Hroot, Htiles, Hfonts.
Qed.

(** X11: in the document of a successful style response, the tile URL
    under [sources.openmaptiles] is the root of the request's URL followed
    by [v1/tiles/], the [tiles] value of the query string as given and
    [/{z}/{x}/{y}.mvt], and [glyphs] is that root followed by [v1/fonts/],
    the [fonts] value as given and [/{fontstack}/{range}.pbf]; the two
    values name an archive and a font collection of the catalogs; and
    whatever the root of the request's URL starts with, a scheme and a
    host say, both URLs start with. *)
Theorem X11_style_urls
    (request : Request) (identifier version file : string) (resp : Response) :
  get_styles mbtiles_dict styles_dict fonts_dict json_loads json_dumps
    request identifier version file = Return resp ->
  status resp = 200 ->
  exists tiles fonts ti tv fi fv d sources tile_url glyph_url,
    Py.dict_get (args request) "tiles" = Some tiles /\
    Py.dict_get (args request) "fonts" = Some fonts /\
    Py.split "@" tiles = [ti; tv] /\
    is_Some (mbtiles_dict !! (ti, tv)) /\
    Py.split "@" fonts = [fi; fv] /\
    is_Some (fonts_dict !! (fi, fv)) /\
    response resp = Some (Text (json_dumps (JObj d))) /\
    Py.dict_get d "sources" = Some (JObj sources) /\
    Py.dict_get sources "openmaptiles"
    = Some (JObj [("type", JStr "vector"); ("tiles", JArr [JStr tile_url])]) /\
    Py.dict_get d "glyphs" = Some (JStr glyph_url) /\
    tile_url
    = url_root request +:+ "v1/tiles/" +:+ tiles +:+ "/{z}/{x}/{y}.mvt" /\
    glyph_url
    = url_root request +:+ "v1/fonts/" +:+ fonts
      +:+ "/{fontstack}/{range}.pbf" /\
    (forall root, Py.startswith root (url_root request) = true ->
       Py.startswith root tile_url = true /\
       Py.startswith root glyph_url = true).
Proof.
  unfold get_styles. intros Hret Hstatus.
  destruct (styles_dict !! (identifier, version, file)) as [style_bytes|];
    [|injection Hret as <-; discriminate].
  destruct (Py.dict_get (args request) "tiles") as [tiles|];
    [|injection Hret as <-; discriminate].
  destruct (Py.split "@" tiles) as [|ti [|tv [|c l]]] eqn:Hti;
    try (injection Hret as <-; discriminate).
  destruct (mbtiles_dict !! (ti, tv)) as [mbtile|] eqn:Hm;
    [|injection Hret as <-; discriminate].
  destruct (Py.dict_get (args request) "fonts") as [fonts|];
    [|injection Hret as <-; discriminate].
  destruct (Py.split "@" fonts) as [|fi [|fv [|c l]]] eqn:Hfi;
    try (injection Hret as <-; discriminate).
  destruct (fonts_dict !! (fi, fv)) as [font_path|] eqn:Hf;
    [|injection Hret as <-; discriminate].
  destruct (json_loads style_bytes) as [style_dict|e]; [|discriminate].
  destruct (compose_style _ _ _) as [composed|e] eqn:Hcompose;
    [|discriminate].
  injection Hret as <-.
  destruct (compose_style_frame _ _ _ _ Hcompose)
    as (d & sources & d' & sources' & -> & -> & _ & H2 & H3 & _ & H5 & _).
  exists tiles, fonts, ti, tv, fi, fv, d', sources',
    (url_root request +:+ "v1/tiles/" +:+ tiles +:+ "/{z}/{x}/{y}.mvt"),
    (url_root request +:+ "v1/fonts/" +:+ fonts
     +:+ "/{fontstack}/{range}.pbf").
  split; [reflexivity|]. split; [reflexivity|]. split; [exact Hti|].
  split; [now exists mbtile|]. split; [exact Hfi|].
  split; [now exists font_path|]. split; [reflexivity|].
  split; [exact H2|]. split; [exact H3|]. split; [exact H5|].
  split; [reflexivity|]. split; [reflexivity|].
  intros root Hroot. split; now apply startswith_append_more.
Qed.

End ServerProperties.

Section FontProperties.
Variable fonts_dict : gmap (string * string) string.

Lemma contains_false_startswith (sub s : string) :
  Py.contains sub s = false -> Py.startswith sub s = false.
Proof.
  destruct s; cbn [Py.contains]; intros H;
    now apply orb_false_iff in H as [H _].
Qed.

(** Line 189 leaves a stack that passed the guard as it is. *)
Lemma get_fonts_plain (read : string -> result bytes)
    (identifier version stack range font_path : string) :
  fonts_dict !! (identifier, version) = Some font_path ->
  Py.contains "." stack = false ->
  Py.contains "." range = false ->
  get_fonts fonts_dict read identifier version stack range
  = match read_fonts read font_path range (Py.split "," stack) with
    | Raise FileNotFoundError => Return (empty_response 404)
    | Raise e => Raise e
    | Return font_bytes =>
        Return {| status := 200; response := Some (Bytes font_bytes);
                  headers := [("content-encoding", "gzip")];
                  content_type := None |}
    end.
Proof.
  intros Hfonts Hstack Hrange. unfold get_fonts.
  rewrite Hfonts, Hstack, Hrange. cbn [orb].
  now rewrite (split_without_separator _ _ Hstack).
Qed.

Lemma read_fonts_cons (read : string -> result bytes)
    (font_path range font : string) (rest : list string) :
  read_fonts read font_path range (font :: rest)
  = match read (glyph_path font_path font range) with
    | Raise e => Raise e
    | Return b =>
        match read_fonts read font_path range rest with
        | Raise e => Raise e
        | Return bs => Return (b ++ bs)
        end
    end.
Proof. reflexivity. Qed.

Lemma read_fonts_all (read : string -> result bytes)
    (font_path range : string) (fonts : list string) (contents : list bytes) :
  Forall2 (fun font b => read (glyph_path font_path font range) = Return b)
    fonts contents ->
  read_fonts read font_path range fonts = Return (concat contents).
Proof.
  induction 1 as [|font b fonts contents Hb _ IH]; [reflexivity|].
  rewrite read_fonts_cons. cbn beta in Hb. now rewrite Hb, IH.
Qed.

Lemma read_fonts_first_failure (read : string -> result bytes)
    (font_path range font : string) (before after : list string) (e : exn) :
  Forall (fun f => exists b, read (glyph_path font_path f range) = Return b)
    before ->
  read (glyph_path font_path font range) = Raise e ->
  read_fonts read font_path range (before ++ font :: after) = Raise e.
Proof.
  intros Hbefore Hfont. induction Hbefore as [|f before [b Hb] _ IH].
  - cbn [app]. rewrite read_fonts_cons. now rewrite Hfont.
  - cbn [app]. rewrite read_fonts_cons. now rewrite Hb, IH.
Qed.

Lemma read_fonts_agree (read read' : string -> result bytes)
    (font_path range : string) (fonts : list string) :
  (forall font, font ∈ fonts ->
     read (glyph_path font_path font range)
     = read' (glyph_path font_path font range)) ->
  read_fonts read font_path range fonts
  = read_fonts read' font_path range fonts.
Proof.
  induction fonts as [|font fonts IH]; intros H; [reflexivity|].
  rewrite !read_fonts_cons.
  rewrite (H font) by (apply elem_of_cons; now left).
  rewrite IH; [reflexivity|]. intros f Hf. apply H, elem_of_cons. now right.
Qed.

(** X14: for a stack and a range without [.], when the glyph file of every
    comma-separated name of the stack can be read, the font view answers
    200, marked gzip, with those files one after the other in the order of
    the stack. *)
Theorem X14_fonts_are_concatenated (read : string -> result bytes)
    (identifier version stack range font_path : string)
    (contents : list bytes) :
  fonts_dict !! (identifier, version) = Some font_path ->
  Py.contains "." stack = false ->
  Py.contains "." range = false ->
  Forall2 (fun font b => read (glyph_path font_path font range) = Return b)
    (Py.split "," stack) contents ->
  get_fonts fonts_dict read identifier version stack range
  = Return {| status := 200; response := Some (Bytes (concat contents));
              headers := [("content-encoding", "gzip")];
              content_type := None |}.
Proof.
  intros Hfonts Hstack Hrange Hall.
  rewrite (get_fonts_plain _ _ _ _ _ _ Hfonts Hstack Hrange).
  now rewrite (read_fonts_all _ _ _ _ _ Hall).
Qed.

(** X15: for a stack and a range without [.], the first name of the stack
    whose glyph file cannot be read decides the answer: 404 when the file
    is not found, the exception itself for any other failure; the names
    after it are not read. *)
Theorem X15_first_unreadable_font_decides (read : string -> result bytes)
    (identifier version stack range font_path font : string)
    (before after : list string) (e : exn) :
  fonts_dict !! (identifier, version) = Some font_path ->
  Py.contains "." stack = false ->
  Py.contains "." range = false ->
  Py.split "," stack = before ++ font :: after ->
  Forall (fun f => exists b, read (glyph_path font_path f range) = Return b)
    before ->
  read (glyph_path font_path font range) = Raise e ->
  (get_fonts fonts_dict read identifier version stack range
   = match e with
     | FileNotFoundError => Return (empty_response 404)
     | _ => Raise e
     end) /\
  forall read' : string -> result bytes,
    (forall f, f ∈ before ++ [font] ->
       read' (glyph_path font_path f range)
       = read (glyph_path font_path f range)) ->
    get_fonts fonts_dict read' identifier version stack range
    = get_fonts fonts_dict read identifier version stack range.
Proof.
  intros Hfonts Hstack Hrange Hsplit Hbefore Hfont.
  assert (Hfail : forall r : string -> result bytes,
            (forall f, f ∈ before ++ [font] ->
               r (glyph_path font_path f range)
               = read (glyph_path font_path f range)) ->
            get_fonts fonts_dict r identifier version stack range
            = match e with
              | FileNotFoundError => Return (empty_response 404)
              | _ => Raise e
              end).
  { intros r Hr.
    rewrite (get_fonts_plain _ _ _ _ _ _ Hfonts Hstack Hrange), Hsplit.
    rewrite (read_fonts_first_failure r _ _ font before after e).
    - now destruct e.
    - eapply Forall_impl; [|intros f Hf; exact Hf].
      apply Forall_forall. intros f Hf.
      rewrite Forall_forall in Hbefore. destruct (Hbefore f Hf) as [b Hb].
      exists b. rewrite Hr; [exact Hb|]. apply elem_of_app. now left.
    - rewrite Hr; [exact Hfont|]. apply elem_of_app. right.
      apply elem_of_cons. now left. }
  split.
  - apply Hfail. reflexivity.
  - intros read' Hr. rewrite (Hfail read' Hr). symmetry.
    apply Hfail. reflexivity.
Qed.

(** X16: the font view consults the file system only at the glyph paths
    of the names of the stack: two file systems that agree there get the
    same answer. *)
Theorem X16_fonts_read_only_glyph_paths (read read' : string -> result bytes)
    (identifier version stack range : string) :
  (forall font_path font,
     fonts_dict !! (identifier, version) = Some font_path ->
     font ∈ Py.split "," stack ->
     read (glyph_path font_path font range)
     = read' (glyph_path font_path font range)) ->
  get_fonts fonts_dict read identifier version stack range
  = get_fonts fonts_dict read' identifier version stack range.
Proof.
  intros Hagree. unfold get_fonts.
  destruct (fonts_dict !! (identifier, version)) as [font_path|] eqn:Hfonts;
    [|reflexivity].
  destruct (Py.contains "." stack) eqn:Hstack; [reflexivity|].
  destruct (Py.contains "." range) eqn:Hrange; [reflexivity|].
  cbn [orb]. rewrite (split_without_separator _ _ Hstack). cbn [hd].
  rewrite (read_fonts_agree read read' font_path range (Py.split "," stack));
    [reflexivity|].
  intros font Hfont. now apply Hagree.
Qed.

End FontProperties.

Lemma endswith_char_append (c : ascii) (a b : string) :
  b <> "" -> Py.endswith_char c (a +:+ b) = Py.endswith_char c b.
Proof.
  intros Hb. induction a as [|x a IH]; [reflexivity|].
  change (String x a +:+ b) with (String x (a +:+ b)).
  cbn [Py.endswith_char]. destruct (a +:+ b) eqn:E; [|exact IH].
  destruct a; [|discriminate]. change ("" +:+ b) with b in E. congruence.
Qed.

Lemma contains_false_endswith (c : ascii) (s : string) :
  Py.contains (String c "") s = false -> Py.endswith_char c s = false.
Proof.
  induction s as [|x s IH]; [reflexivity|].
  cbn [Py.contains Py.startswith]. intros H.
  apply orb_false_iff in H as [Hx Hs]. rewrite andb_true_r in Hx.
  cbn [Py.endswith_char]. destruct s; [|now apply IH].
  rewrite Ascii.eqb_sym. exact Hx.
Qed.

Lemma append_nonempty_l (a b : string) : a <> "" -> a +:+ b <> "".
Proof. destruct a; [congruence | discriminate]. Qed.

(** X17: with a font directory that is not empty and does not end in [/],
    a font name that is not empty and, like the range, holds no [/], the
    glyph file that is read is [<directory>/<font>/<range>.pbf.gz]. *)
Theorem X17_glyph_path_is_below_the_directory (font_path font range : string) :
  font_path <> "" -> Py.endswith_char "/" font_path = false ->
  font <> "" -> Py.contains "/" font = false ->
  Py.contains "/" range = false ->
  glyph_path font_path font range
  = font_path +:+ "/" +:+ font +:+ "/" +:+ range +:+ ".pbf.gz".
Proof.
  intros Hpath Hend Hfont Hslash Hrange.
  unfold glyph_path, os_path_join. cbn [fold_left].
  rewrite (contains_false_startswith _ _ Hslash).
  apply String.eqb_neq in Hpath. rewrite Hpath, Hend. cbn [orb].
  assert (Py.startswith "/" (range +:+ ".pbf.gz") = false) as ->.
  { apply contains_false_startswith in Hrange.
    destruct range as [|c range]; [reflexivity|].
    change (String c range +:+ ".pbf.gz")
      with (String c (range +:+ ".pbf.gz")).
    cbn [Py.startswith] in Hrange |- *. exact Hrange. }
  assert (String.eqb (font_path +:+ "/" +:+ font) "" = false) as ->.
  { apply String.eqb_neq, append_nonempty_l. now apply String.eqb_neq. }
  assert (Py.endswith_char "/" (font_path +:+ "/" +:+ font) = false) as ->.
  { rewrite endswith_char_append by (now apply append_nonempty_l).
    rewrite endswith_char_append by exact Hfont.
    now apply contains_false_endswith. }
  cbn [orb]. now rewrite !append_assoc.
Qed.

Lemma X17_witness :
  glyph_path "/tmp/fonts" "Open Sans Regular" "0-255"
  = "/tmp/fonts" +:+ "/" +:+ "Open Sans Regular" +:+ "/" +:+ "0-255"
    +:+ ".pbf.gz".
Proof.
  apply (X17_glyph_path_is_below_the_directory
           "/tmp/fonts" "Open Sans Regular" "0-255");
    first [discriminate | reflexivity].
Defined.

(** ** The response headers and the catalog of archives: properties *)

Lemma headers_replace_others (l : list (string * string)) (key value : string) :
  List.filter (fun h => negb (named key h)) (headers_replace l key value)
  = List.filter (fun h => negb (named key h)) l.
Proof.
  induction l as [|[k v] l IH]; cbn [headers_replace].
  - rewrite filter_head. unfold named. cbn [fst].
    now rewrite String.eqb_refl.
  - change (String.eqb (Py.lower k) (Py.lower key)) with (named key (k, v)).
    destruct (named key (k, v)) eqn:E.
    + rewrite !filter_head, E.
      assert (named key (key, value) = true) as ->
        by (unfold named; cbn [fst]; apply String.eqb_refl).
      cbn [negb]. apply filter_twice.
    + rewrite !filter_head, E. cbn [negb]. now rewrite IH.
Qed.

Lemma filter_filter_out {A : Type} (f : A -> bool) (l : list A) :
  List.filter f (List.filter (fun x => negb (f x)) l) = [].
Proof.
  induction l as [|x l IH]; [reflexivity|]. cbn.
  destruct (f x) eqn:E; cbn; rewrite ?E; exact IH.
Qed.

Lemma headers_replace_named (l : list (string * string)) (key value : string) :
  List.filter (named key) (headers_replace l key value) = [(key, value)].
Proof.
  assert (named key (key, value) = true) as Hkey
    by (unfold named; cbn [fst]; apply String.eqb_refl).
  induction l as [|[k v] l IH]; cbn [headers_replace].
  - now rewrite filter_head, Hkey.
  - change (String.eqb (Py.lower k) (Py.lower key)) with (named key (k, v)).
    destruct (named key (k, v)) eqn:E.
    + rewrite filter_head, Hkey. f_equal.
      change (fun t : string * string =>
                negb (String.eqb (Py.lower (fst t)) (Py.lower key)))
        with (fun t : string * string => negb (named key t)).
      apply filter_filter_out.
    + rewrite filter_head, E. exact IH.
Qed.

Lemma headers_replace_twice (l : list (string * string)) (key value : string) :
  headers_replace (headers_replace l key value) key value
  = headers_replace l key value.
Proof.
  induction l as [|[k v] l IH]; cbn [headers_replace].
  - now rewrite String.eqb_refl.
  - destruct (String.eqb (Py.lower k) (Py.lower key)) eqn:E.
    + cbn [headers_replace]. rewrite String.eqb_refl. f_equal.
      apply filter_twice.
    + cbn [headers_replace]. rewrite E. now rewrite IH.
Qed.

(** X18: [_add_headers] leaves the status, the body and the content type
    of a response as they are, and with no origin or an empty one returns
    the response itself.  With a non-empty origin it raises [ValueError]
    when the origin holds a line break; otherwise the response carries the
    origin as its one [access-control-allow-origin] header, and the headers
    of every other name (names compared without regard to case) are kept,
    in their order. *)
Theorem X18_add_headers_frame (origin : option string) (resp : Response) :
  match origin with
  | Some o =>
      if Py.truthy o
      then
        if Py.contains line_feed o || Py.contains carriage_return o
        then _add_headers origin resp = Raise ValueError
        else
          exists resp',
            _add_headers origin resp = Return resp' /\
            status resp' = status resp /\
            response resp' = response resp /\
            content_type resp' = content_type resp /\
            List.filter (named "access-control-allow-origin") (headers resp')
            = [("access-control-allow-origin", o)] /\
            List.filter
              (fun h => negb (named "access-control-allow-origin" h))
              (headers resp')
            = List.filter
                (fun h => negb (named "access-control-allow-origin" h))
                (headers resp)
      else _add_headers origin resp = Return resp
  | None => _add_headers origin resp = Return resp
  end.
Proof.
  unfold _add_headers, headers_set. destruct origin as [o|]; [|reflexivity].
  destruct (Py.truthy o); [|reflexivity].
  destruct (Py.contains line_feed o || Py.contains carriage_return o);
    [reflexivity|].
  eexists. split; [reflexivity|]. cbn [status response content_type headers].
  repeat split.
  - apply headers_replace_named.
  - apply headers_replace_others.
Qed.

(** X19: [_add_headers] applied twice gives what it gives applied once:
    applied to a response it has returned, it returns it again. *)
Theorem X19_add_headers_idempotent
    (origin : option string) (resp resp' : Response) :
  _add_headers origin resp = Return resp' ->
  _add_headers origin resp' = Return resp'.
Proof.
  unfold _add_headers, headers_set. destruct origin as [o|]; [|now intros [= <-]].
  destruct (Py.truthy o); [|now intros [= <-]].
  destruct (Py.contains line_feed o || Py.contains carriage_return o);
    [discriminate|].
  intros [= <-]. cbn [status response content_type headers].
  now rewrite headers_replace_twice.
Qed.

(** One more archive: the catalog built so far, with the archive put under
    its identifier and version. *)
Lemma build_mbtiles_dict_snoc (mbtiles : list value) (mbtile : value) :
  build_mbtiles_dict (VList (mbtiles ++ [mbtile]))
  = match build_mbtiles_dict (VList mbtiles) with
    | Raise e => Raise e
    | Return d =>
        match catalog_item mbtile with
        | Raise e => Raise e
        | Return (key, entry) => Return (<[key := entry]> d)
        end
    end.
Proof.
  unfold build_mbtiles_dict. cbn [iterate]. now rewrite fold_left_app.
Qed.

Lemma catalog_item_Return (mbtile : value) (i v : string)
    (entry : Py.dict value) :
  catalog_item mbtile = Return ((i, v), entry) <->
  mbtile = VDict entry /\
  Py.dict_get entry "IDENTIFIER" = Some (VStr i) /\
  Py.dict_get entry "VERSION" = Some (VStr v).
Proof.
  unfold catalog_item. split.
  - destruct mbtile as [s|l|d]; try discriminate.
    destruct (Py.dict_get d "IDENTIFIER") as [[i'|?|?]|] eqn:Hi;
      try discriminate;
      destruct (Py.dict_get d "VERSION") as [[v'|?|?]|] eqn:Hv;
      try discriminate.
    intros [= <- <- <-]. auto.
  - intros (-> & -> & ->). reflexivity.
Qed.

Lemma catalog_item_outcome (mbtile : value) :
  (has_catalog_key mbtile /\ exists item, catalog_item mbtile = Return item) \/
  (~ has_catalog_key mbtile /\
   exists e, catalog_item mbtile = Raise e /\
     (e = KeyError \/ e = TypeError) /\
     (e = KeyError <->
      exists d, mbtile = VDict d /\
        (Py.dict_get d "IDENTIFIER" = None \/
         Py.dict_get d "VERSION" = None))).
Proof.
  unfold has_catalog_key, catalog_item.
  destruct mbtile as [s|l|d].
  1,2: right; split; [intros (? & ? & ? & ? & _); discriminate|];
       exists TypeError; split; [reflexivity|]; split; [now right|];
       split; [discriminate | intros (? & ? & _); discriminate].
  destruct (Py.dict_get d "IDENTIFIER") as [i|] eqn:Hi.
  2:{ right. split.
      - intros (d' & i & v & [= <-] & Hi' & _). congruence.
      - exists KeyError. split; [reflexivity|]. split; [now left|].
        split; [|reflexivity]. intros _. exists d. auto. }
  destruct (Py.dict_get d "VERSION") as [v|] eqn:Hv.
  2:{ right. split.
      - intros (d' & i' & v & [= <-] & _ & Hv'). congruence.
      - exists KeyError. split; [reflexivity|]. split; [now left|].
        split; [|reflexivity]. intros _. exists d. auto. }
  destruct i as [i|?|?], v as [v|?|?];
    try (right; split;
         [intros (d' & i' & v' & [= <-] & Hi' & Hv'); congruence|];
         exists TypeError; split; [reflexivity|]; split; [now right|];
         split; [discriminate|];
         intros (d' & [= <-] & [H|H]); congruence).
  left. split; [exists d, i, v; auto | eauto].
Qed.

Lemma build_mbtiles_dict_outcome (mbtiles : list value) :
  (Forall has_catalog_key mbtiles /\
   exists d, build_mbtiles_dict (VList mbtiles) = Return d) \/
  (exists before mbtile after e,
     mbtiles = before ++ mbtile :: after /\
     Forall has_catalog_key before /\
     ~ has_catalog_key mbtile /\
     catalog_item mbtile = Raise e /\
     build_mbtiles_dict (VList mbtiles) = Raise e).
Proof.
  induction mbtiles as [|mbtile mbtiles IH] using rev_ind.
  - left. split; [constructor | now exists ∅].
  - rewrite build_mbtiles_dict_snoc.
    destruct IH as [[Hall [d ->]]|(before & m & after & e & -> & Hb & Hm & He & ->)].
    + destruct (catalog_item_outcome mbtile)
        as [[Hkey [[key entry] ->]]|[Hkey (e & He & _)]].
      * left. split; [|eauto]. apply Forall_app. split; [exact Hall|].
        now constructor.
      * right. exists mbtiles, mbtile, [], e. rewrite He. auto.
    + right. exists before, m, (after ++ [mbtile]), e.
      rewrite <- app_assoc. auto.
Qed.

Lemma build_mbtiles_dict_entries (mbtiles : list value)
    (d : gmap (string * string) (Py.dict value)) :
  build_mbtiles_dict (VList mbtiles) = Return d ->
  (forall i v m, d !! (i, v) = Some m ->
     VDict m ∈ mbtiles /\
     Py.dict_get m "IDENTIFIER" = Some (VStr i) /\
     Py.dict_get m "VERSION" = Some (VStr v)) /\
  (forall mbtile, mbtile ∈ mbtiles ->
     exists m i v,
       mbtile = VDict m /\
       Py.dict_get m "IDENTIFIER" = Some (VStr i) /\
       Py.dict_get m "VERSION" = Some (VStr v) /\
       is_Some (d !! (i, v))).
Proof.
  revert d. induction mbtiles as [|mbtile mbtiles IH] using rev_ind;
    intros d Hd.
  - injection Hd as <-. split.
    + intros i v m H. now rewrite lookup_empty in H.
    + intros m H. now apply elem_of_nil in H.
  - rewrite build_mbtiles_dict_snoc in Hd.
    destruct (build_mbtiles_dict (VList mbtiles)) as [d0|]; [|discriminate].
    destruct (catalog_item mbtile) as [[[i0 v0] entry]|] eqn:Hitem;
      [|discriminate].
    apply catalog_item_Return in Hitem as (-> & Hi0 & Hv0).
    injection Hd as <-. destruct (IH d0 eq_refl) as [IH1 IH2]. split.
    + intros i v m Hm. rewrite elem_of_app, list_elem_of_singleton.
      destruct (decide ((i0, v0) = (i, v))) as [[= <- <-]|Hne].
      * rewrite lookup_insert_eq in Hm. injection Hm as <-. auto.
      * rewrite lookup_insert_ne in Hm by exact Hne.
        destruct (IH1 _ _ _ Hm) as (? & ? & ?). auto.
    + intros m Hm. apply elem_of_app in Hm as [Hm|Hm].
      * destruct (IH2 m Hm) as (e & i & v & -> & Hmi & Hmv & Hsome).
        exists e, i, v. repeat split; auto.
        destruct (decide ((i0, v0) = (i, v))) as [->|Hne].
        -- rewrite lookup_insert_eq. eauto.
        -- now rewrite lookup_insert_ne.
      * apply list_elem_of_singleton in Hm as ->.
        exists entry, i0, v0. rewrite lookup_insert_eq. eauto.
Qed.

(** X20: the catalog of archives is built exactly when every item that
    iterating [mbtiles] gives is a dict whose [IDENTIFIER] and [VERSION]
    are strings.  Otherwise the first item that is not ends the start-up:
    in [KeyError] when it is a dict without [IDENTIFIER] or without
    [VERSION], in [TypeError] when it is no dict or one of the two is no
    string; so a [mbtiles] that is a string or a dict, not a list, builds
    the empty catalog when it is empty and ends in [TypeError] when not. *)
Theorem X20_catalog_needs_identifier_and_version (mbtiles : value) :
  ((exists d, build_mbtiles_dict mbtiles = Return d) <->
   Forall has_catalog_key (iterate mbtiles)) /\
  (forall e, build_mbtiles_dict mbtiles = Raise e ->
     exists before mbtile after,
       iterate mbtiles = before ++ mbtile :: after /\
       Forall has_catalog_key before /\
       ~ has_catalog_key mbtile /\
       (e = KeyError \/ e = TypeError) /\
       (e = KeyError <->
        exists d, mbtile = VDict d /\
          (Py.dict_get d "IDENTIFIER" = None \/
           Py.dict_get d "VERSION" = None))) /\
  match mbtiles with
  | VList _ => True
  | VStr "" | VDict [] => build_mbtiles_dict mbtiles = Return ∅
  | _ => build_mbtiles_dict mbtiles = Raise TypeError
  end.
Proof.
  change (build_mbtiles_dict mbtiles)
    with (build_mbtiles_dict (VList (iterate mbtiles))).
  split; [|split].
  - destruct (build_mbtiles_dict_outcome (iterate mbtiles))
      as [[Hall [d Hd]]|(before & m & after & e & Hi & Hb & Hm & He & Hr)].
    + split; eauto.
    + rewrite Hr. split; [intros [d Hd]; discriminate|].
      rewrite Hi. intros Hall. apply Forall_app in Hall as [_ Hall].
      apply Forall_cons in Hall as [Hall _]. now destruct Hm.
  - intros e Hbuild.
    destruct (build_mbtiles_dict_outcome (iterate mbtiles))
      as [[Hall [d Hd]]|(before & m & after & e' & Hi & Hb & Hm & He & Hr)];
      [congruence|].
    rewrite Hr in Hbuild. injection Hbuild as ->.
    exists before, m, after. split; [exact Hi|]. split; [exact Hb|].
    split; [exact Hm|].
    destruct (catalog_item_outcome m)
      as [[Hkey _]|[_ (e' & He' & Hor & Hiff)]]; [now destruct Hm|].
    rewrite He in He'. injection He' as <-. auto.
  - destruct mbtiles as [[|c s]|l|[|[k v] d]]; try exact I; try reflexivity.
    + unfold build_mbtiles_dict. cbn [iterate list_ascii_of_string map].
      cbn [fold_left catalog_item].
      induction (map _ (list_ascii_of_string s)); [reflexivity | assumption].
    + unfold build_mbtiles_dict. cbn [iterate map].
      cbn [fold_left catalog_item].
      induction (map _ d); [reflexivity | assumption].
Qed.

(** X21: in the catalog that is built every entry is an archive of the
    configuration, kept under its own identifier and version, and every
    archive of the configuration has its key in the catalog. *)
Theorem X21_catalog_entries_are_the_archives
    (mbtiles : list value) (d : gmap (string * string) (Py.dict value)) :
  build_mbtiles_dict (VList mbtiles) = Return d ->
  (forall i v m, d !! (i, v) = Some m ->
     VDict m ∈ mbtiles /\
     Py.dict_get m "IDENTIFIER" = Some (VStr i) /\
     Py.dict_get m "VERSION" = Some (VStr v)) /\
  (forall mbtile, mbtile ∈ mbtiles ->
     exists m i v,
       mbtile = VDict m /\
       Py.dict_get m "IDENTIFIER" = Some (VStr i) /\
       Py.dict_get m "VERSION" = Some (VStr v) /\
       is_Some (d !! (i, v))).
Proof. apply build_mbtiles_dict_entries. Qed.

(** X22: of several archives with the same identifier and version the
    catalog keeps the last one of the configuration. *)
Theorem X22_last_archive_wins
    (before after : list value) (m : Py.dict value)
    (i v : string) (d : gmap (string * string) (Py.dict value)) :
  build_mbtiles_dict (VList (before ++ VDict m :: after)) = Return d ->
  Py.dict_get m "IDENTIFIER" = Some (VStr i) ->
  Py.dict_get m "VERSION" = Some (VStr v) ->
  (forall m', VDict m' ∈ after ->
     ~ (Py.dict_get m' "IDENTIFIER" = Some (VStr i) /\
        Py.dict_get m' "VERSION" = Some (VStr v))) ->
  d !! (i, v) = Some m.
Proof.
  revert d. induction after as [|m' after IH] using rev_ind;
    intros d Hd Hi Hv Hafter.
  - rewrite build_mbtiles_dict_snoc in Hd.
    destruct (build_mbtiles_dict (VList before)) as [d0|]; [|discriminate].
    assert (catalog_item (VDict m) = Return ((i, v), m)) as Hitem
      by now apply catalog_item_Return.
    rewrite Hitem in Hd. injection Hd as <-. apply lookup_insert_eq.
  - assert (before ++ VDict m :: after ++ [m']
            = (before ++ VDict m :: after) ++ [m'])
      as E by now rewrite <- app_assoc.
    rewrite E, build_mbtiles_dict_snoc in Hd.
    destruct (build_mbtiles_dict (VList (before ++ VDict m :: after)))
      as [d0|]; [|discriminate].
    destruct (catalog_item m') as [[[i' v'] entry]|] eqn:Hitem;
      [|discriminate].
    apply catalog_item_Return in Hitem as (-> & Hi' & Hv').
    injection Hd as <-. rewrite lookup_insert_ne.
    + apply IH; auto. intros m'' Hm''. apply Hafter, elem_of_app. now left.
    + intros [= -> ->]. apply (Hafter entry).
      * apply elem_of_app. right. now apply list_elem_of_singleton.
      * now split.
Qed.

(** X23: when every archive of the configuration has a [URL], every entry
    of the catalog that is built has one: the tile view then resolves
    every key of the catalog to a locator. *)
Theorem X23_catalog_resolves_to_locators
    (mbtiles : list value) (d : gmap (string * string) (Py.dict value)) :
  build_mbtiles_dict (VList mbtiles) = Return d ->
  Forall (fun mbtile =>
            forall m, mbtile = VDict m -> is_Some (Py.dict_get m "URL"))
    mbtiles ->
  every_archive_has_url d.
Proof.
  intros Hd Hall [i v] m Hm.
  destruct (build_mbtiles_dict_entries _ _ Hd) as [Hentries _].
  destruct (Hentries _ _ _ Hm) as (Hin & _ & _).
  rewrite Forall_forall in Hall. now apply (Hall _ Hin).
Qed.

(** ** The further properties at concrete requests *)

Lemma X9_witness :
  (forall y',
     fst (get_tile demo_mbtiles_dict demo_remote "counties" "1" 3 2 9)
     = fst (get_tile demo_mbtiles_dict demo_remote "counties" "1" 3 2 y')
     -> 9%N = y') /\
  ((2 ^ 3 <= 9)%N ->
   exists query,
     fst (get_tile demo_mbtiles_dict demo_remote "counties" "1" 3 2 9)
     = [query] /\
     snd (params query) < 0).
Proof.
  apply (X9_row_is_not_bounded demo_mbtiles_dict demo_remote "counties" "1"
           (VStr "https://bucket.example/counties.mbtiles") 3 2 9
           demo_mbtile);
    reflexivity.
Defined.

Lemma X10_witness :
  get_styles demo_mbtiles_dict demo_styles_dict demo_fonts_dict
    demo_json_loads demo_json_dumps demo_request
    "positron-gl-style" "1.8" "style.json"
  = Return {| status := 200; response := Some (Text "{}"); headers := [];
              content_type := Some "application/json" |}.
Proof.
  apply (X10_style_success demo_mbtiles_dict demo_styles_dict demo_fonts_dict
           demo_json_loads demo_json_dumps demo_request
           "positron-gl-style" "1.8" "style.json" [x7b; x7d]
           "counties@1" "fonts-gl@2.0"
           [("version", JInt 8);
            ("sources", JObj [("openmaptiles", JObj [("type", JStr "vector")]);
                              ("other", JNull)]);
            ("layers", JArr [])]
           [("openmaptiles", JObj [("type", JStr "vector")]);
            ("other", JNull)]);
    reflexivity.
Defined.

Lemma X11_witness :
  exists tiles fonts ti tv fi fv d sources tile_url glyph_url,
    Py.dict_get (args demo_request) "tiles" = Some tiles /\
    Py.dict_get (args demo_request) "fonts" = Some fonts /\
    Py.split "@" tiles = [ti; tv] /\
    is_Some (demo_mbtiles_dict !! (ti, tv)) /\
    Py.split "@" fonts = [fi; fv] /\
    is_Some (demo_fonts_dict !! (fi, fv)) /\
    response
      {| status := 200; response := Some (Text "{}"); headers := [];
         content_type := Some "application/json" |}
    = Some (Text (demo_json_dumps (JObj d))) /\
    Py.dict_get d "sources" = Some (JObj sources) /\
    Py.dict_get sources "openmaptiles"
    = Some (JObj [("type", JStr "vector"); ("tiles", JArr [JStr tile_url])]) /\
    Py.dict_get d "glyphs" = Some (JStr glyph_url) /\
    tile_url
    = url_root demo_request +:+ "v1/tiles/" +:+ tiles
      +:+ "/{z}/{x}/{y}.mvt" /\
    glyph_url
    = url_root demo_request +:+ "v1/fonts/" +:+ fonts
      +:+ "/{fontstack}/{range}.pbf" /\
    (forall root, Py.startswith root (url_root demo_request) = true ->
       Py.startswith root tile_url = true /\
       Py.startswith root glyph_url = true).
Proof.
  apply (X11_style_urls demo_mbtiles_dict demo_styles_dict demo_fonts_dict
           demo_json_loads demo_json_dumps demo_request
           "positron-gl-style" "1.8" "style.json");
    reflexivity.
Defined.

Lemma X12_witness :
  get_styles demo_mbtiles_dict demo_styles_dict demo_fonts_dict
    demo_null_loads demo_json_dumps demo_request
    "positron-gl-style" "1.8" "style.json"
  = Raise TypeError.
Proof.
  refine (proj1 (proj2 (X12_style_template_errors demo_mbtiles_dict
                          demo_styles_dict demo_fonts_dict demo_null_loads
                          demo_json_dumps demo_request
                          "positron-gl-style" "1.8" "style.json" [x7b; x7d]
                          _ _)) JNull _ _).
  - reflexivity.
  - reflexivity.
  - reflexivity.
  - discriminate.
Defined.

Lemma X13_witness :
  get_styles demo_mbtiles_dict demo_styles_dict demo_fonts_dict
    demo_json_loads demo_json_dumps demo_repeating_request
    "positron-gl-style" "1.8" "style.json"
  = get_styles demo_mbtiles_dict demo_styles_dict demo_fonts_dict
      demo_json_loads demo_json_dumps demo_request
      "positron-gl-style" "1.8" "style.json".
Proof.
  apply (X13_style_reads_first_values demo_mbtiles_dict demo_styles_dict
           demo_fonts_dict demo_json_loads demo_json_dumps
           demo_repeating_request demo_request); reflexivity.
Defined.

Lemma X14_witness :
  get_fonts demo_fonts_dict demo_read "fonts-gl" "2.0" "A,B" "0-255"
  = Return {| status := 200;
              response := Some (Bytes (concat [[x01]; [x02]]));
              headers := [("content-encoding", "gzip")];
              content_type := None |}.
Proof.
  apply (X14_fonts_are_concatenated demo_fonts_dict demo_read
           "fonts-gl" "2.0" "A,B" "0-255" "/tmp/fonts" [[x01]; [x02]]).
  - reflexivity.
  - reflexivity.
  - reflexivity.
  - change (Py.split "," "A,B") with ["A"; "B"].
    constructor; [reflexivity|]. constructor; [reflexivity|]. constructor.
Defined.

Lemma X15_witness :
  get_fonts demo_fonts_dict demo_other_read "fonts-gl" "2.0" "A,C,B" "0-255"
  = Raise (OSError 13).
Proof.
  refine (proj1 (X15_first_unreadable_font_decides demo_fonts_dict
                   demo_other_read "fonts-gl" "2.0" "A,C,B" "0-255"
                   "/tmp/fonts" "C" ["A"] ["B"] (OSError 13) _ _ _ _ _ _)).
  - reflexivity.
  - reflexivity.
  - reflexivity.
  - reflexivity.
  - constructor; [|constructor]. exists [x01]. reflexivity.
  - reflexivity.
Defined.

Lemma X16_witness :
  get_fonts demo_fonts_dict demo_read "fonts-gl" "2.0" "A" "0-255"
  = get_fonts demo_fonts_dict demo_other_read "fonts-gl" "2.0" "A" "0-255".
Proof.
  apply (X16_fonts_read_only_glyph_paths demo_fonts_dict demo_read
           demo_other_read "fonts-gl" "2.0" "A" "0-255").
  intros font_path font Hpath Hfont.
  unfold demo_fonts_dict in Hpath. rewrite lookup_singleton_eq in Hpath.
  injection Hpath as <-.
  change (Py.split "," "A") with ["A"] in Hfont.
  apply list_elem_of_singleton in Hfont as ->. reflexivity.
Defined.

Lemma X19_witness :
  _add_headers (Some "https://maps.example")
    {| status := 200; response := None;
       headers := [("access-control-allow-origin", "https://maps.example")];
       content_type := None |}
  = Return {| status := 200; response := None;
              headers :=
                [("access-control-allow-origin", "https://maps.example")];
              content_type := None |}.
Proof.
  apply (X19_add_headers_idempotent (Some "https://maps.example")
           {| status := 200; response := None;
              headers := [("Access-Control-Allow-Origin", "*")];
              content_type := None |}).
  reflexivity.
Defined.

Lemma X21_witness :
  (forall i v m, demo_mbtiles_dict !! (i, v) = Some m ->
     VDict m ∈ [VDict demo_mbtile] /\
     Py.dict_get m "IDENTIFIER" = Some (VStr i) /\
     Py.dict_get m "VERSION" = Some (VStr v)) /\
  (forall mbtile, mbtile ∈ [VDict demo_mbtile] ->
     exists m i v,
       mbtile = VDict m /\
       Py.dict_get m "IDENTIFIER" = Some (VStr i) /\
       Py.dict_get m "VERSION" = Some (VStr v) /\
       is_Some (demo_mbtiles_dict !! (i, v))).
Proof.
  apply (X21_catalog_entries_are_the_archives
           [VDict demo_mbtile] demo_mbtiles_dict).
  reflexivity.
Defined.

Lemma X22_witness :
  (<[("counties", "1") := demo_mbtile]>
     (<[("counties", "1") := demo_older_mbtile]> ∅)
   : gmap (string * string) (Py.dict value))
  !! ("counties", "1") = Some demo_mbtile.
Proof.
  apply (X22_last_archive_wins [VDict demo_older_mbtile] [] demo_mbtile
           "counties" "1").
  - reflexivity.
  - reflexivity.
  - reflexivity.
  - intros m' Hm'. now apply elem_of_nil in Hm'.
Defined.

Lemma X23_witness : every_archive_has_url demo_mbtiles_dict.
Proof.
  apply (X23_catalog_resolves_to_locators
           [VDict demo_mbtile] demo_mbtiles_dict).
  - reflexivity.
  - constructor; [|constructor]. intros m [= <-].
    exists (VStr "https://bucket.example/counties.mbtiles"). reflexivity.
Defined.
